(** * codeflow-web: release download links

    A shallow embedding of the two programs of the repository that fetch the
    latest GitHub release and classify its assets:

    - the React component [DownloadLinks] (the [.tsx] source), and
    - the build script [scripts/update-releases.mjs].

    File names are JavaScript strings.  They are modelled by [string] with one
    character per code unit; [toLowerCase] folds the letters [A]-[Z] and
    leaves every other character alone, which is what
    [String.prototype.toLowerCase] does on ASCII names. *)

From Stdlib Require Import Bool Arith ZArith QArith Qround List Lia.
From Stdlib Require Import Ascii String DecimalString DecimalN Qfield FinFun.
Import ListNotations.
Close Scope Q_scope.
Open Scope string_scope.

(** ** JavaScript string primitives used by the sources *)

Module JsString.

Definition lowerChar (c : ascii) : ascii :=
  let n := nat_of_ascii c in
  if ((65 <=? n) && (n <=? 90))%nat then ascii_of_nat (n + 32) else c.

(** [s.toLowerCase()] *)
Fixpoint toLowerCase (s : string) : string :=
  match s with
  | EmptyString => EmptyString
  | String c rest => String (lowerChar c) (toLowerCase rest)
  end.

(** [s.startsWith(searchString, 0)], the test [includes] makes at each
    position. *)
Fixpoint startsWith (s searchString : string) {struct searchString} : bool :=
  match searchString with
  | EmptyString => true
  | String d searchRest =>
      match s with
      | EmptyString => false
      | String c rest => Ascii.eqb c d && startsWith rest searchRest
      end
  end.

(** [s.includes(searchString)]: some position of [s] starts an occurrence. *)
Fixpoint includes (s searchString : string) : bool :=
  startsWith s searchString ||
  match s with
  | EmptyString => false
  | String _ rest => includes rest searchString
  end.

(** [s.endsWith(searchString)]: with [start = len - searchLength], false
    when [start < 0], else the code units from [start] on are compared. *)
Definition endsWith (s searchString : string) : bool :=
  let len := String.length s in
  let searchLength := String.length searchString in
  if (len <? searchLength)%nat then false
  else String.eqb (substring (len - searchLength) searchLength s) searchString.

(** The line feed that ends the written file. *)
Definition newline : string := String "010" EmptyString.

End JsString.
Import JsString.

(** ** Numbers

    Asset sizes are integers, so the numbers of [formatBytes] are modelled
    exactly: [bytes] is a [Z], [Math.floor(Math.log(bytes) / Math.log(1024))]
    is the integer part of the base-1024 logarithm, and the quotient
    [bytes / Math.pow(1024, i)], a division by a power of two, is the
    rational [value].  Up to [1024 ^ 4] the double-precision quotient of
    logarithms has the same integer part; far above it (from about
    [2 ^ 50]) rounding can lift it to the next integer, in a range where
    both indices are outside the unit table anyway. *)

Module JsNumber.

(** [String(n)] for an integer [n >= 0]. *)
Definition decimal (n : Z) : string :=
  NilEmpty.string_of_uint (N.to_uint (Z.to_N n)).

(** [Math.floor(Math.log(bytes) / Math.log(1024))] for [bytes > 0]: the
    binary logarithm counts ten to each power of 1024. *)
Definition floorLog1024 (bytes : Z) : Z := Z.log2 bytes / 10.

Fixpoint zeros (k : nat) : string :=
  match k with
  | O => EmptyString
  | S k' => String "0" (zeros k')
  end.

(** [x.toFixed(f)] for [0 <= x < 1e21], after the language definition:
    [n] is the integer with [n / 10^f] closest to [x], the larger one on
    a tie; its digits [m] are padded with zeros to [f + 1] characters and
    the point goes before the last [f] of them. *)
Definition toFixed (x : Q) (fractionDigits : nat) : string :=
  let f := fractionDigits in
  let n := Qfloor (x * inject_Z (10 ^ Z.of_nat f) + (1 # 2)) in
  let m := decimal n in
  match f with
  | O => m
  | _ =>
      let k := String.length m in
      let m := if (k <=? f)%nat then zeros (f + 1 - k) ++ m else m in
      let k := String.length m in
      substring 0 (k - f) m ++ "." ++ substring (k - f) f m
  end.

End JsNumber.
Import JsNumber.

(** ** Promises and effects

    A settled promise is either fulfilled with a value or rejected with a
    reason.  Code that updates state and may throw runs in a state and
    exception monad: [bind] is [await] (or [.then]), [throw] a rejection,
    [catch] the handler of [.catch]. *)

Inductive Settled (A : Type) : Type :=
| Fulfilled (value : A)
| Rejected (reason : string).
Arguments Fulfilled {A} value.
Arguments Rejected {A} reason.

Module Eff.
Section Eff.
Context {St Exn : Type}.

Definition t (A : Type) : Type := St -> (Exn + A) * St.

Definition ret {A} (a : A) : t A := fun s => (inr a, s).

Definition throw {A} (e : Exn) : t A := fun s => (inl e, s).

Definition bind {A B} (m : t A) (k : A -> t B) : t B :=
  fun s =>
    match m s with
    | (inr a, s') => k a s'
    | (inl e, s') => (inl e, s')
    end.

Definition catch {A} (m : t A) (handler : Exn -> t A) : t A :=
  fun s =>
    match m s with
    | (inr a, s') => (inr a, s')
    | (inl e, s') => handler e s'
    end.

Definition modify (f : St -> St) : t unit := fun s => (inr tt, f s).
End Eff.
End Eff.

Declare Scope eff_scope.
Delimit Scope eff_scope with eff.
Notation "x <- m ;; k" := (Eff.bind m (fun x => k))
  (at level 61, m at next level, right associativity) : eff_scope.
Notation "m ;; k" := (Eff.bind m (fun _ => k))
  (at level 61, right associativity) : eff_scope.

(** The part of a [fetch] response the sources look at.  [json] is the
    outcome of [res.json()]: the component keeps the document as it is, the
    script reads it through the interface [Release], and a body that cannot
    be read so is a rejection. *)
Module Response.
Record t (Body : Type) : Type := Build
  { status : Z;
    json : Settled Body }.
Arguments Build {Body} status json.
Arguments status {Body} t.
Arguments json {Body} t.

(** [res.ok] *)
Definition ok {Body} (res : t Body) : bool :=
  (200 <=? status res)%Z && (status res <=? 299)%Z.
End Response.

#[local] Set Warnings "-register-all".

(** A parsed JSON document.  Numbers are integers here. *)
Inductive JsValue : Type :=
| JNull
| JBool (b : bool)
| JNumber (n : Z)
| JString (s : string)
| JArray (items : list JsValue)
| JObject (fields : list (string * JsValue)).

Definition truthy (v : JsValue) : bool :=
  match v with
  | JNull => false
  | JBool b => b
  | JNumber n => negb (n =? 0)%Z
  | JString s => negb (s =? EmptyString)
  | JArray _ | JObject _ => true
  end.

(** ** Data model: the interfaces declared by the component *)

Module ReleaseAsset.
Record t : Type := Build
  { name : string;
    browser_download_url : string;
    size : Z }.
End ReleaseAsset.

Module Release.
Record t : Type := Build
  { tag_name : string;
    name : string;
    html_url : string;
    published_at : string;
    assets : list ReleaseAsset.t;
    body : string }.
End Release.

(** The [icon] field of [Platform] is presentation only and is left out. *)
Module Platform.
Record t : Type := Build
  { name : string;
    match_ : string -> bool }.
End Platform.

(** ** The component [DownloadLinks] *)

Module DownloadLinks.

Definition macOS : Platform.t :=
  {| Platform.name := "macOS";
     Platform.match_ := fun name =>
       let lower := toLowerCase name in
       includes lower "mac" || includes lower "darwin" ||
       includes lower "macos" || endsWith lower ".dmg" |}.

Definition Windows : Platform.t :=
  {| Platform.name := "Windows";
     Platform.match_ := fun name =>
       let lower := toLowerCase name in
       includes lower "win" || endsWith lower ".exe" ||
       endsWith lower ".msi" |}.

Definition Linux : Platform.t :=
  {| Platform.name := "Linux";
     Platform.match_ := fun name =>
       let lower := toLowerCase name in
       includes lower "linux" || endsWith lower ".appimage" ||
       endsWith lower ".deb" || endsWith lower ".rpm" |}.

Definition platforms : list Platform.t := [macOS; Windows; Linux].

Definition units : list string := ["B"; "KB"; "MB"; "GB"].

(** A negative [bytes] has logarithm [NaN]; the index, the quotient and
    its rendering are then [NaN] and the unit lookup is [undefined].
    [units[i]] beyond the table is [undefined] as well. *)
Definition formatBytes (bytes : Z) : string :=
  if (bytes =? 0)%Z then "0 B"
  else if (bytes <? 0)%Z then "NaN undefined"
  else
    let i := floorLog1024 bytes in
    let value := (inject_Z bytes / inject_Z (1024 ^ i))%Q in
    toFixed value (if (i =? 0)%Z then 0 else 1) ++ " " ++
    match nth_error units (Z.to_nat i) with
    | Some unit => unit
    | None => "undefined"
    end.

Definition isInstallerAsset (name : string) : bool :=
  let lower := toLowerCase name in
  negb (endsWith lower ".sha256" || endsWith lower ".sig" ||
        endsWith lower ".blockmap" || endsWith lower ".yaml" ||
        endsWith lower ".yml").

(** The three constants computed by the render function once a release is
    present ("Match assets to platforms"); the release is read through the
    interface [Release]. *)
Definition installerAssets (release : Release.t) : list ReleaseAsset.t :=
  filter (fun a => isInstallerAsset (ReleaseAsset.name a))
         (Release.assets release).

Definition platformAssets (release : Release.t)
  : list (Platform.t * option ReleaseAsset.t) :=
  map (fun platform =>
         (platform,
          find (fun a => Platform.match_ platform (ReleaseAsset.name a))
               (installerAssets release)))
      platforms.

Definition unmatchedAssets (release : Release.t) : list ReleaseAsset.t :=
  filter (fun a =>
            negb (existsb (fun p => Platform.match_ p (ReleaseAsset.name a))
                          platforms))
         (installerAssets release).

(** *** The fetch effect and the render cascade

    The three [useState] cells.  The annotation [Release | null] is erased
    at run time: the cell holds whatever [res.json()] resolved to. *)
Record State : Type := Build_State
  { release : JsValue;
    loading : bool;
    error : option string }.

Definition initial : State :=
  {| release := JNull; loading := true; error := None |}.

Definition Effect : Type -> Type := @Eff.t State string.

Definition setRelease (data : JsValue) : Effect unit :=
  Eff.modify (fun s =>
    {| release := data; loading := loading s; error := error s |}).

Definition setLoading (b : bool) : Effect unit :=
  Eff.modify (fun s =>
    {| release := release s; loading := b; error := error s |}).

Definition setError (message : string) : Effect unit :=
  Eff.modify (fun s =>
    {| release := release s; loading := loading s; error := Some message |}).

Definition await {A} (p : Settled A) : Effect A :=
  match p with
  | Fulfilled a => Eff.ret a
  | Rejected reason => Eff.throw reason
  end.

Definition errorMessage : string :=
  "Could not fetch release information. Please try again later.".

(** The promise chain of [useEffect]; [fetched] is how [fetch(API_URL)]
    settled. *)
Definition effect (fetched : Settled (Response.t JsValue)) : Effect unit :=
  Eff.catch
    (data <-
       (res <- await fetched ;;
        if (Response.status res =? 404)%Z then
          (setLoading false ;; Eff.ret JNull)
        else if negb (Response.ok res) then
          Eff.throw ("HTTP " ++ decimal (Response.status res))
        else await (Response.json res)) ;;
     (if truthy data then setRelease data else Eff.ret tt) ;;
     setLoading false)%eff
    (fun _ => setError errorMessage ;; setLoading false)%eff.

(** The state once the chain has run from the initial state. *)
Definition settle (fetched : Settled (Response.t JsValue)) : State :=
  snd (effect fetched initial).

(** How far the render function gets: to one of its three early returns,
    or past them ([Proceeds]) to the statements that match the assets of
    the stored value to platforms.  Those statements read the value through
    the interface [Release]: for a release, what is returned is [page]
    below; on a value without an array [assets] the first of them,
    [release.assets.filter], throws and nothing is returned. *)
Inductive View : Type :=
| Spinner
| ErrorText (message : string)
| NoReleases
| Proceeds (release : JsValue).

(** [if (error)]: there is a message and it is not the empty string. *)
Definition shown (error : option string) : option string :=
  match error with
  | Some message => if message =? EmptyString then None else Some message
  | None => None
  end.

(** The guards [if (loading)], [if (error)] and [if (!release)] of the
    render function. *)
Definition render (s : State) : View :=
  if loading s then Spinner
  else
    match shown (error s) with
    | Some message => ErrorText message
    | None =>
        if negb (truthy (release s)) then NoReleases
        else Proceeds (release s)
    end.

(** *** What the render function returns for a release

    Of the JSX only the links are kept: where each one points, whether it
    opens a new tab, the variant of its style and its text.  Icons, sizes
    and layout classes are left out. *)
Definition REPO : string := "gimenete/codeflow".

Record Anchor : Type := Build_Anchor
  { key : option string;
    href : string;
    target : option string;
    rel : option string;
    variant : option string;
    content : list string }.

(** One entry of [platformAssets.map(({ platform, asset }) => ...)]. *)
Definition platformButton (entry : Platform.t * option ReleaseAsset.t)
  : Anchor :=
  let (platform, asset) := entry in
  {| key := Some (Platform.name platform);
     href := match asset with
             | Some a => ReleaseAsset.browser_download_url a
             | None => "https://github.com/" ++ REPO ++ "/releases/latest"
             end;
     target := match asset with Some _ => None | None => Some "_blank" end;
     rel := match asset with
            | Some _ => None
            | None => Some "noopener noreferrer"
            end;
     variant := Some match asset with
                     | Some _ => "default"
                     | None => "outline"
                     end;
     content :=
       [Platform.name platform;
        match asset with
        | Some a =>
            ReleaseAsset.name a ++ " (" ++
            formatBytes (ReleaseAsset.size a) ++ ")"
        | None => "Not available yet"
        end] |}.

(** One entry of [unmatchedAssets.map((asset) => ...)]. *)
Definition otherDownload (a : ReleaseAsset.t) : Anchor :=
  {| key := Some (ReleaseAsset.name a);
     href := ReleaseAsset.browser_download_url a;
     target := None;
     rel := None;
     variant := Some "outline";
     content :=
       [ReleaseAsset.name a ++ " (" ++
        formatBytes (ReleaseAsset.size a) ++ ")"] |}.

Record Page : Type := Build_Page
  { versionBadge : Anchor;
    platformButtons : list Anchor;
    otherDownloads : option (list Anchor);
    allReleases : Anchor }.

(** The last return of the render function, for a release.  The block of
    other downloads is there only under [unmatchedAssets.length > 0]. *)
Definition page (release : Release.t) : Page :=
  {| versionBadge :=
       {| key := None;
          href := Release.html_url release;
          target := Some "_blank";
          rel := Some "noopener noreferrer";
          variant := Some "secondary";
          content :=
            [if Release.name release =? EmptyString
             then Release.tag_name release
             else Release.name release] |};
     platformButtons := map platformButton (platformAssets release);
     otherDownloads :=
       if (0 <? List.length (unmatchedAssets release))%nat
       then Some (map otherDownload (unmatchedAssets release))
       else None;
     allReleases :=
       {| key := None;
          href := "https://github.com/" ++ REPO ++ "/releases";
          target := Some "_blank";
          rel := Some "noopener noreferrer";
          variant := None;
          content := ["View all releases on GitHub"] |} |}.

End DownloadLinks.

(** ** The build script [update-releases.mjs] *)

Module UpdateReleases.

Definition REPO : string := "gimenete/codeflow".

Definition units : list string := ["B"; "KB"; "MB"; "GB"].

Definition formatBytes (bytes : Z) : string :=
  if (bytes =? 0)%Z then "0 B"
  else if (bytes <? 0)%Z then "NaN undefined"
  else
    let i := floorLog1024 bytes in
    let value := (inject_Z bytes / inject_Z (1024 ^ i))%Q in
    toFixed value (if (i =? 0)%Z then 0 else 1) ++ " " ++
    match nth_error units (Z.to_nat i) with
    | Some unit => unit
    | None => "undefined"
    end.

Definition isInstallerAsset (name : string) : bool :=
  let lower := toLowerCase name in
  negb (endsWith lower ".sha256" ||
        endsWith lower ".sig" ||
        endsWith lower ".blockmap" ||
        endsWith lower ".yaml" ||
        endsWith lower ".yml").

(** The result is the platform label, [None] for JavaScript's [null]. *)
Definition detectPlatform (name : string) : option string :=
  let lower := toLowerCase name in
  if includes lower "mac" || includes lower "darwin" ||
     includes lower "macos" || endsWith lower ".dmg"
  then Some "macOS"
  else if includes lower "win" || endsWith lower ".exe" ||
          endsWith lower ".msi"
  then Some "Windows"
  else if includes lower "linux" || endsWith lower ".appimage" ||
          endsWith lower ".deb" || endsWith lower ".rpm"
  then Some "Linux"
  else None.

(** *** The records written to [release.json] *)

Module Asset.
Record t : Type := Build
  { name : string;
    url : string;
    size : Z;
    sizeFormatted : string;
    platform : option string }.
End Asset.

Module ReleaseData.
Record t : Type := Build
  { version : string;
    tagName : string;
    url : string;
    publishedAt : string;
    assets : list Asset.t }.
End ReleaseData.

Record Snapshot : Type := Build_Snapshot
  { release : option ReleaseData.t;
    fetchedAt : string }.

(** [release.assets.filter(...).map(...)] *)
Definition snapshotAssets (release : Release.t) : list Asset.t :=
  map (fun a =>
         {| Asset.name := ReleaseAsset.name a;
            Asset.url := ReleaseAsset.browser_download_url a;
            Asset.size := ReleaseAsset.size a;
            Asset.sizeFormatted := formatBytes (ReleaseAsset.size a);
            Asset.platform := detectPlatform (ReleaseAsset.name a) |})
      (filter (fun a => isInstallerAsset (ReleaseAsset.name a))
              (Release.assets release)).

(** [release.name || release.tag_name] *)
Definition version (release : Release.t) : string :=
  if Release.name release =? EmptyString then Release.tag_name release
  else Release.name release.

(** *** The process

    What [main] can touch: the directory and the file of [OUTPUT_PATH], and
    the two console streams.  The calls on the file system are taken to
    succeed. *)
Record World : Type := Build_World
  { dataDir : bool;
    releaseJson : option string;
    stdout : list string;
    stderr : list string }.

(** [process.exit(code)] stops the process; a rejected [await] that nothing
    catches rejects the promise of [main()]. *)
Inductive Abort : Type :=
| ProcessExit (code : Z)
| Unhandled (reason : string).

Definition Process : Type -> Type := @Eff.t World Abort.

Definition console_log (line : string) : Process unit :=
  Eff.modify (fun w =>
    {| dataDir := dataDir w; releaseJson := releaseJson w;
       stdout := stdout w ++ [line]; stderr := stderr w |}).

Definition console_error (line : string) : Process unit :=
  Eff.modify (fun w =>
    {| dataDir := dataDir w; releaseJson := releaseJson w;
       stdout := stdout w; stderr := stderr w ++ [line] |}).

(** [mkdirSync(dirname(OUTPUT_PATH), { recursive: true })] *)
Definition mkdirSync : Process unit :=
  Eff.modify (fun w =>
    {| dataDir := true; releaseJson := releaseJson w;
       stdout := stdout w; stderr := stderr w |}).

(** [writeFileSync(OUTPUT_PATH, content)] *)
Definition writeFileSync (content : string) : Process unit :=
  Eff.modify (fun w =>
    {| dataDir := dataDir w; releaseJson := Some content;
       stdout := stdout w; stderr := stderr w |}).

Definition process_exit {A} (code : Z) : Process A :=
  Eff.throw (ProcessExit code).

Definition await {A} (p : Settled A) : Process A :=
  match p with
  | Fulfilled a => Eff.ret a
  | Rejected reason => Eff.throw (Unhandled reason)
  end.

Fixpoint forEach {A} (l : list A) (body : A -> Process unit) : Process unit :=
  match l with
  | [] => Eff.ret tt
  | a :: rest => (body a ;; forEach rest body)%eff
  end.

Section Main.

(** Supplied by the runtime: the encoder [JSON.stringify(data, null, 2)]
    and the path computed from the location of the script. *)
Variable JSON_stringify : Snapshot -> string.
Variable OUTPUT_PATH : string.

(** [fetched] is how [fetch(API_URL, ...)] settled and [now] what
    [new Date().toISOString()] returns. *)
Definition main (fetched : Settled (Response.t Release.t)) (now : string)
  : Process unit :=
  (console_log ("Fetching latest release from " ++ REPO ++ "...") ;;
   res <- await fetched ;;
   if (Response.status res =? 404)%Z then
     console_log "No releases found. Writing empty release data." ;;
     let data := {| release := None; fetchedAt := now |} in
     mkdirSync ;;
     writeFileSync (JSON_stringify data ++ newline) ;;
     console_log ("Wrote " ++ OUTPUT_PATH)
   else
     (if negb (Response.ok res) then
        console_error
          ("GitHub API error: HTTP " ++ decimal (Response.status res)) ;;
        process_exit 1
      else Eff.ret tt) ;;
     release <- await (Response.json res) ;;
     let assets := snapshotAssets release in
     let data :=
       {| release := Some
            {| ReleaseData.version := version release;
               ReleaseData.tagName := Release.tag_name release;
               ReleaseData.url := Release.html_url release;
               ReleaseData.publishedAt := Release.published_at release;
               ReleaseData.assets := assets |};
          fetchedAt := now |} in
     mkdirSync ;;
     writeFileSync (JSON_stringify data ++ newline) ;;
     console_log
       ("Release " ++ version release ++ " with " ++
        decimal (Z.of_nat (List.length assets)) ++ " asset(s):") ;;
     forEach assets (fun a =>
       console_log
         ("  " ++
          match Asset.platform a with
          | Some label => label
          | None => "other"
          end ++ ": " ++ Asset.name a ++
          " (" ++ Asset.sizeFormatted a ++ ")")) ;;
     console_log ("Wrote " ++ OUTPUT_PATH))%eff.

(** How the process ends.  A normal return of [main] lets it exit with
    code 0 and [process.exit(code)] exits with [code].  Nothing handles a
    rejection of [main()]: the runtime reports it and, unless told
    otherwise, exits with code 1. *)
Inductive Ending : Type :=
| Exited (code : Z)
| Crashed (reason : string).

Definition ending (outcome : Abort + unit) : Ending :=
  match outcome with
  | inr tt => Exited 0
  | inl (ProcessExit code) => Exited code
  | inl (Unhandled reason) => Crashed reason
  end.

Definition run (fetched : Settled (Response.t Release.t)) (now : string)
               (w : World) : Ending * World :=
  let (outcome, w') := main fetched now w in (ending outcome, w').
End Main.

End UpdateReleases.

(** * Vocabulary of the statements *)

(** [Removing P l l']: the list [l'] is [l] without the elements that satisfy
    [P]; the other elements are kept as they are, in the order of [l]. *)
Inductive Removing {A : Type} (P : A -> Prop) : list A -> list A -> Prop :=
| Removing_nil : Removing P [] []
| Removing_drop a l l' : P a -> Removing P l l' -> Removing P (a :: l) l'
| Removing_keep a l l' :
    ~ P a -> Removing P l l' -> Removing P (a :: l) (a :: l').

(** The suffixes of the side files that are not installers. *)
Definition metadataSuffixes : list string :=
  [".sha256"; ".sig"; ".blockmap"; ".yaml"; ".yml"].

(** [name], in lower case, ends with one of them. *)
Definition metadataName (name : string) : Prop :=
  exists suffix pre,
    In suffix metadataSuffixes /\ toLowerCase name = pre ++ suffix.

(** Some platform rule of the component accepts the file name. *)
Definition matchesSomePlatform (name : string) : Prop :=
  exists p, In p DownloadLinks.platforms /\ Platform.match_ p name = true.

(** The number part of a formatted size whose unit has index [i]: the
    integer itself for bytes; otherwise digits, a point and one digit, which
    together are the digits of the integer [n] nearest to ten times
    [bytes / 1024 ^ i], the larger one on a tie. *)
Definition Rendered (bytes : Z) (i : nat) (number : string) : Prop :=
  match i with
  | O => number = decimal bytes
  | S _ =>
      exists a b n,
        number = a ++ "." ++ b /\ String.length b = 1 /\
        a ++ b = decimal n /\
        (2 * 1024 ^ Z.of_nat i * n <= 20 * bytes + 1024 ^ Z.of_nat i
           < 2 * 1024 ^ Z.of_nat i * (n + 1))%Z
  end.



Definition errorState : DownloadLinks.State :=
  {| DownloadLinks.release := JNull;
     DownloadLinks.loading := false;
     DownloadLinks.error := Some DownloadLinks.errorMessage |}.

(** The two documents the script writes. *)
Definition emptySnapshot (now : string) : UpdateReleases.Snapshot :=
  {| UpdateReleases.release := None; UpdateReleases.fetchedAt := now |}.

Definition classified (release : Release.t) (now : string)
  : UpdateReleases.Snapshot :=
  {| UpdateReleases.release := Some
       {| UpdateReleases.ReleaseData.version := UpdateReleases.version release;
          UpdateReleases.ReleaseData.tagName := Release.tag_name release;
          UpdateReleases.ReleaseData.url := Release.html_url release;
          UpdateReleases.ReleaseData.publishedAt := Release.published_at release;
          UpdateReleases.ReleaseData.assets :=
            UpdateReleases.snapshotAssets release |};
     UpdateReleases.fetchedAt := now |}.

(** ** Sample inputs *)

Definition asset (name : string) (size : Z) : ReleaseAsset.t :=
  {| ReleaseAsset.name := name;
     ReleaseAsset.browser_download_url :=
       "https://github.com/gimenete/codeflow/releases/download/v1.0/" ++ name;
     ReleaseAsset.size := size |}.

Definition releaseOf (assets : list ReleaseAsset.t) : Release.t :=
  {| Release.tag_name := "v1.0";
     Release.name := "Codeflow 1.0";
     Release.html_url :=
       "https://github.com/gimenete/codeflow/releases/tag/v1.0";
     Release.published_at := "2025-01-01T00:00:00Z";
     Release.assets := assets;
     Release.body := EmptyString |}.

Definition installers : Release.t :=
  releaseOf [asset "App-1.0.dmg" 1000000; asset "App-1.0.exe" 2000000;
             asset "App-1.0.dmg.sha256" 64; asset "readme.txt" 12].

Definition twoDiskImages : Release.t :=
  releaseOf [asset "App-1.0-arm64.dmg" 1000000;
             asset "App-1.0-x64.dmg" 1100000].

Definition darwinArchive : Release.t :=
  releaseOf [asset "Codeflow-darwin-arm64.zip" 3000000].

(** A release that has side files only. *)
Definition checksumsOnly : Release.t :=
  releaseOf [asset "App-1.0.dmg.sha256" 64; asset "latest-mac.YML" 512].

(** An encoder that tells the two kinds of document apart; the encoder of
    the runtime is not part of the sources. *)
Definition sketch (data : UpdateReleases.Snapshot) : string :=
  match UpdateReleases.release data with
  | None => "{ release: null, fetchedAt: " ++ UpdateReleases.fetchedAt data ++ " }"
  | Some r =>
      "{ release: " ++ UpdateReleases.ReleaseData.version r ++
      ", fetchedAt: " ++ UpdateReleases.fetchedAt data ++ " }"
  end.

Definition emptyWorld : UpdateReleases.World :=
  {| UpdateReleases.dataDir := false;
     UpdateReleases.releaseJson := None;
     UpdateReleases.stdout := [];
     UpdateReleases.stderr := [] |}.

(** A world in which an earlier run has left its file. *)
Definition builtWorld : UpdateReleases.World :=
  {| UpdateReleases.dataDir := true;
     UpdateReleases.releaseJson := Some (sketch (classified installers "2025-01-02T00:00:00.000Z") ++ newline);
     UpdateReleases.stdout := [];
     UpdateReleases.stderr := [] |}.

(** * Facts about the primitives *)

(** ** Strings *)

Section StringFacts.

Lemma append_assoc (a b c : string) : (a ++ b) ++ c = a ++ (b ++ c).
Proof. induction a as [|x a IH]; simpl; [reflexivity | now rewrite IH]. Qed.

Lemma length_append (a b : string) :
  String.length (a ++ b) = String.length a + String.length b.
Proof. induction a as [|x a IH]; simpl; [reflexivity | now rewrite IH]. Qed.

Lemma startsWith_spec (s t : string) :
  startsWith s t = true <-> exists post, s = t ++ post.
Proof.
  revert s; induction t as [|d t IH]; intros s; simpl.
  - split; [intros _; now exists s | reflexivity].
  - destruct s as [|c s].
    + split; [discriminate | intros [post H]; discriminate].
    + rewrite andb_true_iff, Ascii.eqb_eq, IH. split.
      * intros [-> [post ->]]. now exists post.
      * intros [post H]. injection H as -> ->.
        split; [reflexivity | now exists post].
Qed.

Lemma includes_spec (s t : string) :
  includes s t = true <-> exists pre post, s = pre ++ t ++ post.
Proof.
  induction s as [|c s IH]; simpl.
  - rewrite orb_false_r, startsWith_spec. split.
    + intros [post H]. now exists EmptyString, post.
    + intros [[|x pre] [post H]]; [now exists post | discriminate].
  - rewrite orb_true_iff, startsWith_spec, IH. split.
    + intros [[post H] | [pre [post H]]].
      * now exists EmptyString, post.
      * exists (String c pre), post. simpl. now rewrite H.
    + intros [[|x pre] [post H]].
      * left. now exists post.
      * right. simpl in H. injection H as _ H. now exists pre, post.
Qed.

(** An occurrence of a string contains an occurrence of each of its parts. *)
Lemma includes_part (s a t b : string) :
  includes s (a ++ t ++ b) = true -> includes s t = true.
Proof.
  rewrite !includes_spec. intros [pre [post ->]].
  exists (pre ++ a), (b ++ post). now rewrite !append_assoc.
Qed.

Lemma substring_all (s : string) : substring 0 (String.length s) s = s.
Proof. induction s as [|c s IH]; simpl; [reflexivity | now rewrite IH]. Qed.

Lemma substring_none (s : string) : substring 0 0 s = EmptyString.
Proof. now destruct s. Qed.

(** Cutting a string at [n] gives back the string. *)
Lemma substring_split (s : string) (n m : nat) :
  n + m = String.length s -> substring 0 n s ++ substring n m s = s.
Proof.
  revert n; induction s as [|c s IH]; intros n H; simpl in H.
  - assert (n = 0) as -> by lia. assert (m = 0) as -> by lia. reflexivity.
  - destruct n as [|n].
    + simpl in H. subst m. rewrite substring_none. simpl.
      now rewrite substring_all.
    + simpl. rewrite IH; [reflexivity | lia].
Qed.

Lemma substring_suffix (pre t : string) :
  substring (String.length pre) (String.length t) (pre ++ t) = t.
Proof.
  induction pre as [|c pre IH]; simpl; [apply substring_all | exact IH].
Qed.

Lemma length_substring (s : string) (n m : nat) :
  n + m <= String.length s -> String.length (substring n m s) = m.
Proof.
  revert n m; induction s as [|c s IH]; intros n m H; simpl in H.
  - assert (n = 0) as -> by lia. assert (m = 0) as -> by lia. reflexivity.
  - destruct n as [|n]; simpl.
    + destruct m as [|m]; simpl; [reflexivity |].
      rewrite IH; [reflexivity | lia].
    + apply IH. lia.
Qed.

Lemma endsWith_spec (s t : string) :
  endsWith s t = true <-> exists pre, s = pre ++ t.
Proof.
  unfold endsWith.
  destruct (Nat.ltb_spec (String.length s) (String.length t)) as [Hlt | Hle].
  - split; [discriminate |].
    intros [pre ->]. rewrite length_append in Hlt. lia.
  - rewrite String.eqb_eq. split.
    + intros H.
      exists (substring 0 (String.length s - String.length t) s).
      pose proof (substring_split s (String.length s - String.length t)
                    (String.length t)) as Hcut.
      rewrite H in Hcut. symmetry. apply Hcut. lia.
    + intros [pre ->]. rewrite length_append.
      replace (String.length pre + String.length t - String.length t)
        with (String.length pre) by lia.
      apply substring_suffix.
Qed.

End StringFacts.

(** ** Lists *)

Section ListFacts.
Context {A : Type}.
Local Open Scope list_scope.

Lemma filter_Removing (f : A -> bool) (P : A -> Prop) (l : list A) :
  (forall a, f a = false <-> P a) -> Removing P l (filter f l).
Proof.
  intros Hf. induction l as [|a l IH]; simpl.
  - constructor.
  - destruct (f a) eqn:E.
    + apply Removing_keep; [| exact IH].
      intros HP. apply Hf in HP. congruence.
    + apply Removing_drop; [| exact IH]. now apply Hf.
Qed.

(** [Array.prototype.find] stops at the first element that passes. *)
Lemma find_first (f : A -> bool) (l : list A) (a : A) :
  find f l = Some a ->
  exists before after,
    l = before ++ a :: after /\
    (forall b, In b before -> f b = false) /\ f a = true.
Proof.
  induction l as [|x l IH]; simpl; [discriminate |].
  destruct (f x) eqn:E.
  - intros [= ->]. exists [], l. repeat split; [intros b [] | exact E].
  - intros H. destruct (IH H) as (before & after & -> & Hb & Ha).
    exists (x :: before), after. repeat split; [| exact Ha].
    intros b [<- | Hin]; [exact E | now apply Hb].
Qed.

Lemma find_nothing (f : A -> bool) (l : list A) :
  find f l = None -> forall b, In b l -> f b = false.
Proof. intros H b Hin. exact (find_none f l H b Hin). Qed.

End ListFacts.

(** ** Numbers *)

Section NumberFacts.
Local Open Scope Z_scope.

Lemma floorLog1024_spec (bytes : Z) :
  0 < bytes ->
  0 <= floorLog1024 bytes /\
  1024 ^ floorLog1024 bytes <= bytes < 1024 ^ (floorLog1024 bytes + 1).
Proof.
  intros Hpos. unfold floorLog1024.
  pose proof (Z.log2_nonneg bytes) as Hlog.
  destruct (Z.log2_spec bytes Hpos) as [Hlo Hhi].
  set (l := Z.log2 bytes) in *.
  pose proof (Z.div_mod l 10 ltac:(lia)) as Hdm.
  pose proof (Z.mod_pos_bound l 10 ltac:(lia)) as Hmod.
  assert (0 <= l / 10) as Hi by (apply Z.div_pos; lia).
  split; [exact Hi |].
  change 1024 with (2 ^ 10).
  rewrite <- !Z.pow_mul_r by lia.
  split.
  - apply Z.le_trans with (2 ^ l); [| exact Hlo].
    apply Z.pow_le_mono_r; lia.
  - apply Z.lt_le_trans with (2 ^ Z.succ l); [exact Hhi |].
    apply Z.pow_le_mono_r; lia.
Qed.

Lemma floorLog1024_below (bytes k : Z) :
  0 < bytes -> 0 <= k -> bytes < 1024 ^ k -> floorLog1024 bytes < k.
Proof.
  intros Hpos Hk Hlt.
  destruct (floorLog1024_spec bytes Hpos) as (Hi & Hlo & _).
  destruct (Z.lt_ge_cases (floorLog1024 bytes) k) as [H | H]; [exact H |].
  assert (1024 ^ k <= 1024 ^ floorLog1024 bytes)
    by (apply Z.pow_le_mono_r; lia).
  lia.
Qed.

Lemma floorLog1024_above (bytes k : Z) :
  0 <= k -> 1024 ^ k <= bytes -> k <= floorLog1024 bytes.
Proof.
  intros Hk Hle.
  assert (0 < bytes) as Hpos
    by (pose proof (Z.pow_pos_nonneg 1024 k ltac:(lia) Hk); lia).
  destruct (floorLog1024_spec bytes Hpos) as (Hi & _ & Hhi).
  destruct (Z.lt_ge_cases (floorLog1024 bytes) k) as [H | H]; [| lia].
  assert (1024 ^ (floorLog1024 bytes + 1) <= 1024 ^ k)
    by (apply Z.pow_le_mono_r; lia).
  lia.
Qed.

End NumberFacts.

Section RoundingFacts.
Local Open Scope Z_scope.

Lemma length_decimal (n : Z) : 10 <= n -> (2 <= String.length (decimal n))%nat.
Proof.
  intros Hn. unfold decimal.
  pose proof (DecimalN.Unsigned.of_to (Z.to_N n)) as E.
  rewrite <- (Z2N.id n) in Hn by lia. rewrite <- E in Hn.
  destruct (N.to_uint (Z.to_N n)) as [|d|d|d|d|d|d|d|d|d|d];
    try (destruct d; simpl; try lia);
    exfalso; vm_compute in Hn; apply Hn; reflexivity.
Qed.

(** The integer that [toFixed] prints, in integer arithmetic. *)
Lemma Qfloor_scaled (num den scale : Z) :
  0 < den ->
  Qfloor (inject_Z num / inject_Z den * inject_Z scale + (1 # 2)) =
  (2 * num * scale + den) / (2 * den).
Proof.
  intros Hden. rewrite Zdiv_Qdiv. apply Qfloor_comp.
  rewrite inject_Z_plus, !inject_Z_mult.
  assert (~ inject_Z den == 0)%Q as Hnz.
  { change 0%Q with (inject_Z 0). rewrite inject_Z_injective. lia. }
  field. exact Hnz.
Qed.

(** No fraction digits: the nearest integer, printed. *)
Lemma toFixed_0 (num den : Z) :
  0 < den ->
  toFixed (inject_Z num / inject_Z den) 0 =
  decimal ((2 * num + den) / (2 * den)).
Proof.
  intros Hden. unfold toFixed. change (10 ^ Z.of_nat 0) with 1.
  rewrite Qfloor_scaled by exact Hden. now rewrite Z.mul_1_r.
Qed.

(** One fraction digit, for a value of at least 1: the digits of the integer
    nearest to ten times the value, with the point before the last one. *)
Lemma toFixed_1 (num den : Z) :
  0 < den -> den <= num ->
  exists a b,
    toFixed (inject_Z num / inject_Z den) 1 = a ++ "." ++ b /\
    String.length b = 1%nat /\
    a ++ b = decimal ((2 * num * 10 + den) / (2 * den)).
Proof.
  intros Hden Hnum. unfold toFixed. change (10 ^ Z.of_nat 1) with 10.
  rewrite Qfloor_scaled by exact Hden.
  set (n := (2 * num * 10 + den) / (2 * den)).
  assert (10 <= n) as Hn by (unfold n; apply Z.div_le_lower_bound; lia).
  pose proof (length_decimal n Hn) as Hlen.
  destruct (Nat.leb_spec (String.length (decimal n)) 1) as [Hle | _]; [lia |].
  exists (substring 0 (String.length (decimal n) - 1) (decimal n)),
         (substring (String.length (decimal n) - 1) 1 (decimal n)).
  repeat split.
  - apply length_substring. lia.
  - apply substring_split. lia.
Qed.

Lemma toFixed_Rendered (bytes : Z) (i : nat) :
  1024 ^ Z.of_nat i <= bytes ->
  Rendered bytes i
    (toFixed (inject_Z bytes / inject_Z (1024 ^ Z.of_nat i))
             (if Z.of_nat i =? 0 then 0 else 1)).
Proof.
  intros Hle.
  assert (0 < 1024 ^ Z.of_nat i) as Hpow by (apply Z.pow_pos_nonneg; lia).
  destruct i as [|i]; unfold Rendered.
  - change (1024 ^ Z.of_nat 0) with 1. cbn [Z.of_nat Z.eqb].
    rewrite toFixed_0 by lia. f_equal.
    rewrite Z.mul_1_r. symmetry. apply Z.div_unique with (r := 1); lia.
  - set (den := 1024 ^ Z.of_nat (S i)) in *.
    destruct (Z.eqb_spec (Z.of_nat (S i)) 0) as [H0 | _]; [lia |].
    destruct (toFixed_1 bytes den Hpow Hle) as (a & b & Hfix & Hb & Hab).
    exists a, b, ((2 * bytes * 10 + den) / (2 * den)).
    repeat split; trivial.
    + replace (20 * bytes + den) with (2 * bytes * 10 + den) by lia.
      apply Z.mul_div_le. lia.
    + replace (20 * bytes + den) with (2 * bytes * 10 + den) by lia.
      replace (2 * den * ((2 * bytes * 10 + den) / (2 * den) + 1))
        with (2 * den * Z.succ ((2 * bytes * 10 + den) / (2 * den))) by lia.
      apply Z.mul_succ_div_gt. lia.
Qed.

End RoundingFacts.

(** * The byte-size formatter *)

Section Formatter.
Local Open Scope Z_scope.
Import DownloadLinks.

Lemma formatBytes_same (bytes : Z) :
  UpdateReleases.formatBytes bytes = formatBytes bytes.
Proof. reflexivity. Qed.

Lemma formatBytes_positive (bytes : Z) :
  0 < bytes ->
  formatBytes bytes =
  toFixed (inject_Z bytes / inject_Z (1024 ^ floorLog1024 bytes))
          (if floorLog1024 bytes =? 0 then 0 else 1) ++ " " ++
  match nth_error units (Z.to_nat (floorLog1024 bytes)) with
  | Some unit => unit
  | None => "undefined"
  end.
Proof.
  intros Hpos. unfold formatBytes.
  destruct (Z.eqb_spec bytes 0) as [-> | _]; [lia |].
  destruct (Z.ltb_spec bytes 0) as [Hneg | _]; [lia | reflexivity].
Qed.

Lemma nth_error_units (i : Z) :
  0 <= i < 4 -> exists unit, nth_error units (Z.to_nat i) = Some unit.
Proof.
  intros Hi.
  assert (i = 0 \/ i = 1 \/ i = 2 \/ i = 3) as [-> | [-> | [-> | ->]]] by lia;
    eexists; reflexivity.
Qed.

Lemma no_table_unit_closes (number unit : string) :
  In unit units -> "1.0 undefined" <> number ++ " " ++ unit.
Proof.
  intros Hin H.
  assert (endsWith "1.0 undefined" (" " ++ unit) = true) as Hend
    by (apply endsWith_spec; now exists number).
  destruct Hin as [<- | [<- | [<- | [<- | []]]]]; vm_compute in Hend;
    discriminate Hend.
Qed.

End Formatter.

(** * The classifier *)

Section ClassifierFacts.
Local Open Scope list_scope.
Import DownloadLinks.

Lemma isInstallerAsset_false (name : string) :
  isInstallerAsset name = false <-> metadataName name.
Proof.
  unfold isInstallerAsset, metadataName, metadataSuffixes.
  rewrite negb_false_iff, !orb_true_iff, !endsWith_spec. split.
  - intros [[[[[pre H] | [pre H]] | [pre H]] | [pre H]] | [pre H]];
      eexists; exists pre; (split; [| exact H]); simpl; tauto.
  - intros (suffix & pre & Hin & H). simpl in Hin.
    destruct Hin as [<- | [<- | [<- | [<- | [<- | []]]]]]; eauto 6.
Qed.

Lemma isInstallerAsset_same (name : string) :
  UpdateReleases.isInstallerAsset name = isInstallerAsset name.
Proof. reflexivity. Qed.

Lemma some_platform_spec (name : string) :
  existsb (fun p => Platform.match_ p name) platforms = true <->
  matchesSomePlatform name.
Proof. unfold matchesSomePlatform. rewrite existsb_exists. reflexivity. Qed.

Lemma slot_of_platform release platform slot :
  In (platform, slot) (platformAssets release) ->
  In platform platforms /\
  slot = find (fun a => Platform.match_ platform (ReleaseAsset.name a))
              (installerAssets release).
Proof.
  unfold platformAssets. rewrite in_map_iff.
  intros (p & [= -> <-] & Hin). now split.
Qed.

(** The script tries the matchers of the component one after the other. *)
Lemma detectPlatform_cascade name :
  UpdateReleases.detectPlatform name =
  if Platform.match_ macOS name then Some "macOS"
  else if Platform.match_ Windows name then Some "Windows"
  else if Platform.match_ Linux name then Some "Linux"
  else None.
Proof. reflexivity. Qed.

End ClassifierFacts.

(** * The fetch effect of the component *)

Section LifecycleFacts.
Local Open Scope Z_scope.
Import DownloadLinks.


Lemma settle_rejected (reason : string) :
  settle (Rejected reason) = errorState.
Proof. reflexivity. Qed.

Lemma status_2xx {Body} (res : Response.t Body) :
  200 <= Response.status res <= 299 ->
  (Response.status res =? 404) = false /\ Response.ok res = true.
Proof.
  intros H. unfold Response.ok. split; [lia |].
  apply andb_true_iff. lia.
Qed.

Lemma status_other {Body} (res : Response.t Body) :
  Response.status res <> 404 -> ~ 200 <= Response.status res <= 299 ->
  (Response.status res =? 404) = false /\ Response.ok res = false.
Proof.
  intros H404 H. unfold Response.ok. split; [lia |].
  apply andb_false_iff. lia.
Qed.


End LifecycleFacts.

(** * The process of the script *)

Section ScriptFacts.
Local Open Scope Z_scope.
Import UpdateReleases.

Variable JSON_stringify : Snapshot -> string.
Variable OUTPUT_PATH : string.

Lemma forEach_console_log {A} (line : A -> string) (l : list A) (w : World) :
  forEach l (fun a => console_log (line a)) w =
  (inr tt,
   {| dataDir := dataDir w; releaseJson := releaseJson w;
      stdout := (stdout w ++ map line l)%list; stderr := stderr w |}).
Proof.
  revert w; induction l as [|a l IH]; intros w; simpl.
  - rewrite app_nil_r. now destruct w.
  - unfold Eff.bind. cbn [console_log Eff.modify]. rewrite IH. simpl.
    now rewrite <- app_assoc.
Qed.

Lemma run_rejected reason now w :
  run JSON_stringify OUTPUT_PATH (Rejected reason) now w =
  (Crashed reason,
   {| dataDir := dataDir w; releaseJson := releaseJson w;
      stdout := (stdout w ++
                 [("Fetching latest release from " ++ REPO ++ "...")%string])%list;
      stderr := stderr w |}).
Proof. reflexivity. Qed.

Lemma run_not_found res now w exit w' :
  Response.status res = 404 ->
  run JSON_stringify OUTPUT_PATH (Fulfilled res) now w = (exit, w') ->
  exit = Exited 0 /\
  releaseJson w' = Some (JSON_stringify (emptySnapshot now) ++ newline).
Proof.
  intros H. unfold run, main, Eff.bind.
  cbn [console_log Eff.modify await Eff.ret].
  rewrite (proj2 (Z.eqb_eq _ _) H). simpl. intros [= <- <-]. now split.
Qed.

Lemma run_bad_status res now w exit w' :
  (Response.status res =? 404) = false -> Response.ok res = false ->
  run JSON_stringify OUTPUT_PATH (Fulfilled res) now w = (exit, w') ->
  exit = Exited 1 /\
  releaseJson w' = releaseJson w /\ dataDir w' = dataDir w /\
  stderr w' =
    (stderr w ++
     [("GitHub API error: HTTP " ++ decimal (Response.status res))%string])%list.
Proof.
  intros H Hok. unfold run, main, Eff.bind.
  cbn [console_log Eff.modify await Eff.ret].
  rewrite H, Hok. simpl. intros [= <- <-]. repeat split.
Qed.

Lemma run_ok res rel now w exit w' :
  (Response.status res =? 404) = false -> Response.ok res = true ->
  Response.json res = Fulfilled rel ->
  run JSON_stringify OUTPUT_PATH (Fulfilled res) now w = (exit, w') ->
  exit = Exited 0 /\
  releaseJson w' = Some (JSON_stringify (classified rel now) ++ newline).
Proof.
  intros H404 Hok Hjson. unfold run, main, Eff.bind.
  cbn [console_log Eff.modify await Eff.ret].
  rewrite H404, Hok, Hjson.
  cbn [negb await Eff.ret mkdirSync writeFileSync Eff.modify].
  rewrite forEach_console_log. simpl. intros [= <- <-]. now split.
Qed.

Lemma run_unparsed res reason now w exit w' :
  (Response.status res =? 404) = false -> Response.ok res = true ->
  Response.json res = Rejected reason ->
  run JSON_stringify OUTPUT_PATH (Fulfilled res) now w = (exit, w') ->
  exit = Crashed reason /\
  releaseJson w' = releaseJson w /\ dataDir w' = dataDir w.
Proof.
  intros H404 Hok Hjson. unfold run, main, Eff.bind.
  cbn [console_log Eff.modify await Eff.ret].
  rewrite H404, Hok, Hjson. simpl. intros [= <- <-]. repeat split.
Qed.

End ScriptFacts.

(** * Claims about the classifier *)

Section ClassifierClaims.
Local Open Scope list_scope.
Import DownloadLinks.

(** C1, as stated, fails: the Windows matcher of the component accepts
    [Codeflow-darwin-arm64.zip], which the script labels macOS. *)
Lemma label_iff_matcher_refuted :
  ~ (forall name p,
        In p platforms ->
        (UpdateReleases.detectPlatform name = Some (Platform.name p) <->
         Platform.match_ p name = true)).
Proof.
  intros H.
  destruct (H "Codeflow-darwin-arm64.zip" Windows) as [_ Hlabel].
  - right; left; reflexivity.
  - specialize (Hlabel eq_refl). vm_compute in Hlabel. discriminate Hlabel.
Qed.

(** C1, amended. The script labels a file name with the first platform, in
    rule order, whose matcher in the component accepts it, and with [null]
    exactly when none accepts it.  A label therefore implies that the
    matcher of its platform accepts the name, but not conversely: in the
    script the rule order decides the label.  In the component every slot
    is found with the matcher of its own platform alone. *)
Theorem detectPlatform_first_match name :
  UpdateReleases.detectPlatform name =
    option_map Platform.name
      (find (fun p => Platform.match_ p name) platforms) /\
  (forall p, In p platforms ->
     UpdateReleases.detectPlatform name = Some (Platform.name p) ->
     Platform.match_ p name = true) /\
  (UpdateReleases.detectPlatform name = None <->
   forall p, In p platforms -> Platform.match_ p name = false) /\
  (forall release p slot,
     In (p, slot) (platformAssets release) ->
     slot = find (fun a => Platform.match_ p (ReleaseAsset.name a))
                 (installerAssets release)).
Proof.
  rewrite detectPlatform_cascade. unfold platforms. cbn [find In].
  destruct (Platform.match_ macOS name) eqn:Em;
    destruct (Platform.match_ Windows name) eqn:Ew;
    destruct (Platform.match_ Linux name) eqn:El;
    (split; [reflexivity |]);
    (split; [intros p [<- | [<- | [<- | []]]];
             cbn [Platform.name macOS Windows Linux];
             intros [=]; congruence |]);
    (split; [| intros release p slot Hin; now apply slot_of_platform in Hin]);
    (split; [intros Hnone | intros Hall]);
    try discriminate;
    try (intros p [<- | [<- | [<- | []]]]; assumption);
    try (pose proof (Hall macOS (or_introl eq_refl)); congruence);
    try (pose proof (Hall Windows (or_intror (or_introl eq_refl))); congruence);
    try (pose proof (Hall Linux (or_intror (or_intror (or_introl eq_refl))));
         congruence);
    reflexivity.
Qed.

Lemma detectPlatform_first_match_witness :
  In Windows platforms /\
  UpdateReleases.detectPlatform "App-1.0.exe" = Some (Platform.name Windows) /\
  Platform.match_ Windows "App-1.0.exe" = true.
Proof.
  split; [right; left; reflexivity |]. split; [reflexivity |].
  apply (proj1 (proj2 (detectPlatform_first_match "App-1.0.exe")) Windows).
  - right; left; reflexivity.
  - reflexivity.
Defined.

(** C2. Each of the three slots, listed in rule order, holds no asset, and
    then no installer asset satisfies the matcher of the rule, or it holds
    the first installer asset, in the order of the release, that satisfies
    it. *)
Theorem platform_slot_first_match release platform slot :
  In (platform, slot) (platformAssets release) ->
  map fst (platformAssets release) = [macOS; Windows; Linux] /\
  match slot with
  | None =>
      forall a, In a (installerAssets release) ->
                Platform.match_ platform (ReleaseAsset.name a) = false
  | Some a =>
      exists before after,
        installerAssets release = before ++ a :: after /\
        (forall b, In b before ->
                   Platform.match_ platform (ReleaseAsset.name b) = false) /\
        Platform.match_ platform (ReleaseAsset.name a) = true
  end.
Proof.
  intros H. split; [reflexivity |].
  apply slot_of_platform in H. destruct H as [_ ->].
  destruct (find _ _) as [a|] eqn:E.
  - exact (find_first _ _ _ E).
  - exact (find_nothing _ _ E).
Qed.

Lemma platform_slot_first_match_witness :
  In (macOS, Some (asset "App-1.0.dmg" 1000000)) (platformAssets installers) /\
  map fst (platformAssets installers) = [macOS; Windows; Linux] /\
  exists before after,
    installerAssets installers =
      before ++ asset "App-1.0.dmg" 1000000 :: after /\
    (forall b, In b before ->
               Platform.match_ macOS (ReleaseAsset.name b) = false) /\
    Platform.match_ macOS "App-1.0.dmg" = true.
Proof.
  split; [left; reflexivity |].
  apply (platform_slot_first_match installers macOS
           (Some (asset "App-1.0.dmg" 1000000))).
  left; reflexivity.
Defined.



(** C4. The installer filter removes exactly the assets whose file name, in
    lower case, ends with [.sha256], [.sig], [.blockmap], [.yaml] or [.yml];
    every other asset is kept unchanged and in order.  The script keeps the
    same file names as the component. *)
Theorem installer_filter_exact release :
  Removing (fun a => metadataName (ReleaseAsset.name a))
           (Release.assets release) (installerAssets release) /\
  map UpdateReleases.Asset.name (UpdateReleases.snapshotAssets release) =
  map ReleaseAsset.name (installerAssets release).
Proof.
  split.
  - apply filter_Removing. intros a. apply isInstallerAsset_false.
  - unfold UpdateReleases.snapshotAssets, installerAssets.
    rewrite map_map. simpl.
    erewrite filter_ext; [reflexivity |].
    intros a. apply isInstallerAsset_same.
Qed.

(** C5. Every residual asset is an asset of the release that passed the
    installer filter, and the matcher of no platform rule accepts its
    name. *)
Theorem unmatched_disjoint release a :
  In a (unmatchedAssets release) ->
  In a (Release.assets release) /\
  isInstallerAsset (ReleaseAsset.name a) = true /\
  forall p, In p platforms ->
            Platform.match_ p (ReleaseAsset.name a) = false.
Proof.
  unfold unmatchedAssets, installerAssets.
  rewrite !filter_In, negb_true_iff.
  intros [[Hin Hinst] Hnone]. repeat split; trivial.
  intros p Hp.
  destruct (Platform.match_ p (ReleaseAsset.name a)) eqn:E; [| reflexivity].
  assert (existsb (fun p => Platform.match_ p (ReleaseAsset.name a))
                  platforms = true) as Hex
    by (apply existsb_exists; now exists p).
  congruence.
Qed.

Lemma unmatched_disjoint_witness :
  In (asset "readme.txt" 12) (unmatchedAssets installers) /\
  In (asset "readme.txt" 12) (Release.assets installers) /\
  isInstallerAsset "readme.txt" = true /\
  forall p, In p platforms -> Platform.match_ p "readme.txt" = false.
Proof.
  split; [left; reflexivity |].
  apply (unmatched_disjoint installers (asset "readme.txt" 12)).
  left; reflexivity.
Defined.

(** C10. A file name that contains [darwin], in any letter case, satisfies
    the macOS matcher and the Windows matcher, since [darwin] contains
    [win]; the release whose only asset is [Codeflow-darwin-arm64.zip] has
    that asset in the macOS slot and in the Windows slot of the component,
    while the script labels it macOS. *)
Theorem darwin_matches_windows :
  (forall name,
     includes (toLowerCase name) "darwin" = true ->
     Platform.match_ macOS name = true /\
     Platform.match_ Windows name = true) /\
  exists release a,
    In (macOS, Some a) (platformAssets release) /\
    In (Windows, Some a) (platformAssets release) /\
    UpdateReleases.detectPlatform (ReleaseAsset.name a) = Some "macOS" /\
    map UpdateReleases.Asset.platform (UpdateReleases.snapshotAssets release)
      = [Some "macOS"].
Proof.
  split.
  - intros name H. cbn [Platform.match_ macOS Windows].
    rewrite H.
    rewrite (includes_part (toLowerCase name) "dar" "win" EmptyString H).
    now rewrite orb_true_r.
  - exists darwinArchive, (asset "Codeflow-darwin-arm64.zip" 3000000).
    repeat split.
    + left; reflexivity.
    + right; left; reflexivity.
Qed.

Lemma darwin_matches_windows_witness :
  includes (toLowerCase "Codeflow-Darwin-x64.tar.gz") "darwin" = true /\
  Platform.match_ macOS "Codeflow-Darwin-x64.tar.gz" = true /\
  Platform.match_ Windows "Codeflow-Darwin-x64.tar.gz" = true.
Proof.
  split; [reflexivity |].
  apply (proj1 darwin_matches_windows "Codeflow-Darwin-x64.tar.gz").
  reflexivity.
Defined.

(** The scenario of the specification: one slot per platform, the checksum
    file dropped, the text file left over. *)
Example installers_classified :
  map (fun '(p, slot) => (Platform.name p, option_map ReleaseAsset.name slot))
      (platformAssets installers) =
    [("macOS", Some "App-1.0.dmg"); ("Windows", Some "App-1.0.exe");
     ("Linux", None)] /\
  map ReleaseAsset.name (unmatchedAssets installers) = ["readme.txt"].
Proof. split; reflexivity. Qed.

End ClassifierClaims.

(** * Claims about the two fetches *)

Section FetchClaims.
Local Open Scope Z_scope.
Import DownloadLinks.




(** C7, as stated, fails: on a 200 response whose body cannot be read the
    script writes no file and does not end with code 0. *)
Lemma unread_body_writes_nothing :
  Response.ok (Response.Build (Body := Release.t) 200
                 (Rejected "Unexpected end of JSON input")) = true /\
  UpdateReleases.run sketch "src/data/release.json"
    (Fulfilled (Response.Build 200 (Rejected "Unexpected end of JSON input")))
    "2025-01-03T00:00:00.000Z" emptyWorld
  = (UpdateReleases.Crashed "Unexpected end of JSON input",
     {| UpdateReleases.dataDir := false;
        UpdateReleases.releaseJson := None;
        UpdateReleases.stdout :=
          ["Fetching latest release from gimenete/codeflow..."];
        UpdateReleases.stderr := [] |}) /\
  fst (UpdateReleases.run sketch "src/data/release.json"
         (Fulfilled (Response.Build 200
                       (Rejected "Unexpected end of JSON input")))
         "2025-01-03T00:00:00.000Z" emptyWorld)
  <> UpdateReleases.Exited 0.
Proof. repeat split. vm_compute. discriminate. Qed.

(** C7, amended. The script ends with code 0 in exactly two cases, and in
    both it has written the file: a 404 response, where the file holds
    [release: null] and the time stamp, and a 2xx response whose body is
    read as a release, where the file holds the classified release.  On
    every other status it ends with code 1 and leaves the directory and the
    file as they were.  A 2xx response whose body cannot be read makes
    [main] fail and leaves them as they were, too. *)
Theorem main_exit_codes JSON_stringify OUTPUT_PATH fetched now w exit w' :
  UpdateReleases.run JSON_stringify OUTPUT_PATH fetched now w = (exit, w') ->
  (forall res,
     fetched = Fulfilled res -> Response.status res = 404 ->
     exit = UpdateReleases.Exited 0 /\
     UpdateReleases.releaseJson w' =
       Some (JSON_stringify (emptySnapshot now) ++ newline)) /\
  (forall res release,
     fetched = Fulfilled res -> 200 <= Response.status res <= 299 ->
     Response.json res = Fulfilled release ->
     exit = UpdateReleases.Exited 0 /\
     UpdateReleases.releaseJson w' =
       Some (JSON_stringify (classified release now) ++ newline)) /\
  (forall res,
     fetched = Fulfilled res -> Response.status res <> 404 ->
     ~ 200 <= Response.status res <= 299 ->
     exit = UpdateReleases.Exited 1 /\
     UpdateReleases.releaseJson w' = UpdateReleases.releaseJson w /\
     UpdateReleases.dataDir w' = UpdateReleases.dataDir w) /\
  (forall res reason,
     fetched = Fulfilled res -> 200 <= Response.status res <= 299 ->
     Response.json res = Rejected reason ->
     exit = UpdateReleases.Crashed reason /\
     UpdateReleases.releaseJson w' = UpdateReleases.releaseJson w /\
     UpdateReleases.dataDir w' = UpdateReleases.dataDir w) /\
  (exit = UpdateReleases.Exited 0 ->
   exists res,
     fetched = Fulfilled res /\
     ((Response.status res = 404 /\
       UpdateReleases.releaseJson w' =
         Some (JSON_stringify (emptySnapshot now) ++ newline)) \/
      (200 <= Response.status res <= 299 /\
       exists release,
         Response.json res = Fulfilled release /\
         UpdateReleases.releaseJson w' =
           Some (JSON_stringify (classified release now) ++ newline)))).
Proof.
  intros Hrun. split; [| split; [| split; [| split]]].
  - intros res -> H404.
    exact (run_not_found _ _ res now w exit w' H404 Hrun).
  - intros res release -> H2xx Hjson.
    destruct (status_2xx res H2xx) as [H404 Hok].
    exact (run_ok _ _ res release now w exit w' H404 Hok Hjson Hrun).
  - intros res -> H404 Hother.
    destruct (status_other res H404 Hother) as [H404' Hok].
    destruct (run_bad_status _ _ res now w exit w' H404' Hok Hrun)
      as (Hexit & Hfile & Hdir & _).
    now repeat split.
  - intros res reason -> H2xx Hjson.
    destruct (status_2xx res H2xx) as [H404 Hok].
    exact (run_unparsed _ _ res reason now w exit w' H404 Hok Hjson Hrun).
  - intros Hzero. destruct fetched as [res | reason].
    + exists res. split; [reflexivity |].
      destruct (Z.eqb_spec (Response.status res) 404) as [H404 | H404].
      * left. split; [exact H404 |].
        exact (proj2 (run_not_found _ _ res now w exit w' H404 Hrun)).
      * apply Z.eqb_neq in H404.
        destruct (Response.ok res) eqn:Hok.
        -- right. split.
           ++ unfold Response.ok in Hok. apply andb_true_iff in Hok. lia.
           ++ destruct (Response.json res) as [release | reason] eqn:Hjson.
              ** exists release. split; [reflexivity |].
                 exact (proj2 (run_ok _ _ res release now w exit w'
                                 H404 Hok Hjson Hrun)).
              ** destruct (run_unparsed _ _ res reason now w exit w'
                             H404 Hok Hjson Hrun) as [Hcrash _].
                 congruence.
        -- destruct (run_bad_status _ _ res now w exit w' H404 Hok Hrun)
             as [Hone _].
           congruence.
    + rewrite run_rejected in Hrun. congruence.
Qed.

Lemma main_exit_codes_witness :
  fst (UpdateReleases.run sketch "src/data/release.json"
         (Fulfilled (Response.Build 500 (Rejected "not read")))
         "2025-01-03T00:00:00.000Z" builtWorld) = UpdateReleases.Exited 1 /\
  UpdateReleases.releaseJson
    (snd (UpdateReleases.run sketch "src/data/release.json"
            (Fulfilled (Response.Build 500 (Rejected "not read")))
            "2025-01-03T00:00:00.000Z" builtWorld))
    = UpdateReleases.releaseJson builtWorld /\
  UpdateReleases.dataDir
    (snd (UpdateReleases.run sketch "src/data/release.json"
            (Fulfilled (Response.Build 500 (Rejected "not read")))
            "2025-01-03T00:00:00.000Z" builtWorld))
    = UpdateReleases.dataDir builtWorld.
Proof.
  destruct (main_exit_codes sketch "src/data/release.json"
              (Fulfilled (Response.Build 500 (Rejected "not read")))
              "2025-01-03T00:00:00.000Z" builtWorld _ _
              (surjective_pairing _)) as (_ & _ & Hother & _).
  apply (Hother _ eq_refl); simpl; lia.
Defined.

(** The two scenarios of the specification for the script, from a world
    without the file: a 404 writes the empty document and ends with 0, a
    release is written with its labels. *)
Example script_scenarios :
  UpdateReleases.run sketch "src/data/release.json"
    (Fulfilled (Response.Build 404 (Rejected "not read"))) "T" emptyWorld
  = (UpdateReleases.Exited 0,
     {| UpdateReleases.dataDir := true;
        UpdateReleases.releaseJson :=
          Some (sketch (emptySnapshot "T") ++ newline);
        UpdateReleases.stdout :=
          ["Fetching latest release from gimenete/codeflow...";
           "No releases found. Writing empty release data.";
           "Wrote src/data/release.json"];
        UpdateReleases.stderr := [] |}) /\
  UpdateReleases.stdout
    (snd (UpdateReleases.run sketch "src/data/release.json"
            (Fulfilled (Response.Build 200 (Fulfilled installers))) "T"
            emptyWorld))
  = ["Fetching latest release from gimenete/codeflow...";
     "Release Codeflow 1.0 with 3 asset(s):";
     "  macOS: App-1.0.dmg (976.6 KB)";
     "  Windows: App-1.0.exe (1.9 MB)";
     "  other: readme.txt (12 B)";
     "Wrote src/data/release.json"].
Proof. split; vm_compute; reflexivity. Qed.

End FetchClaims.

(** * Claims about the byte-size formatter *)

Section FormatterClaims.
Local Open Scope Z_scope.
Import DownloadLinks.

(** C8, as stated, fails at [1024 ^ 4]: the index is 4, the result is
    [1.0 undefined], and it names no unit of the table. *)
Lemma terabyte_names_no_unit :
  formatBytes (1024 ^ 4) = "1.0 undefined" /\
  ~ (forall bytes,
       1 <= bytes ->
       exists i unit number,
         nth_error units i = Some unit /\
         1024 ^ Z.of_nat i <= bytes /\
         (forall j unit', nth_error units j = Some unit' ->
                          1024 ^ Z.of_nat j <= bytes -> (j <= i)%nat) /\
         formatBytes bytes = number ++ " " ++ unit /\
         Rendered bytes i number).
Proof.
  split; [vm_compute; reflexivity |].
  intros H.
  destruct (H (1024 ^ 4) ltac:(vm_compute; discriminate))
    as (i & unit & number & Hunit & _ & _ & Hfmt & _).
  apply nth_error_In in Hunit.
  apply (no_table_unit_closes number unit Hunit).
  rewrite <- Hfmt. vm_compute. reflexivity.
Qed.

(** C8, amended. The formatter maps 0 to [0 B]; for every integer from 1 up
    to, but excluding, [1024 ^ 4] it picks the largest unit of B, KB, MB, GB
    whose scaled value is at least 1, and renders the scaled value with no
    decimal place for B and with exactly one otherwise.  In particular 1024
    gives [1.0 KB], 500 gives [500 B], 1536 gives [1.5 KB] and 1073741824
    gives [1.0 GB].  The script and the component format alike. *)
Theorem formatBytes_largest_unit :
  formatBytes 0 = "0 B" /\
  formatBytes 1024 = "1.0 KB" /\
  formatBytes 500 = "500 B" /\
  formatBytes 1536 = "1.5 KB" /\
  formatBytes 1073741824 = "1.0 GB" /\
  (forall bytes, UpdateReleases.formatBytes bytes = formatBytes bytes) /\
  forall bytes,
    1 <= bytes < 1024 ^ 4 ->
    exists i unit number,
      nth_error units i = Some unit /\
      1024 ^ Z.of_nat i <= bytes /\
      (forall j unit', nth_error units j = Some unit' ->
                       1024 ^ Z.of_nat j <= bytes -> (j <= i)%nat) /\
      formatBytes bytes = number ++ " " ++ unit /\
      Rendered bytes i number.
Proof.
  do 5 (split; [vm_compute; reflexivity |]).
  split; [exact formatBytes_same |].
  intros bytes [Hlo Hhi].
  assert (0 < bytes) as Hpos by lia.
  destruct (floorLog1024_spec bytes Hpos) as (Hi & Hle & Hlt).
  pose proof (floorLog1024_below bytes 4 Hpos ltac:(lia) Hhi) as Hi4.
  destruct (nth_error_units (floorLog1024 bytes) (conj Hi Hi4))
    as [unit Hunit].
  rewrite (formatBytes_positive bytes Hpos), Hunit.
  destruct (Z_of_nat_complete (floorLog1024 bytes) Hi) as [i Ei].
  rewrite Ei in Hle, Hunit |- *. rewrite Nat2Z.id in Hunit.
  exists i, unit. eexists.
  split; [exact Hunit |]. split; [exact Hle |].
  split; [| split; [reflexivity |]].
  - intros j unit' _ Hj.
    pose proof (floorLog1024_above bytes (Z.of_nat j) ltac:(lia) Hj). lia.
  - apply toFixed_Rendered. exact Hle.
Qed.

Lemma formatBytes_largest_unit_witness :
  exists i unit number,
    nth_error units i = Some unit /\
    1024 ^ Z.of_nat i <= 1536 /\
    (forall j unit', nth_error units j = Some unit' ->
                     1024 ^ Z.of_nat j <= 1536 -> (j <= i)%nat) /\
    formatBytes 1536 = number ++ " " ++ unit /\
    Rendered 1536 i number.
Proof.
  apply formatBytes_largest_unit. split; [lia | reflexivity].
Defined.

(** C9. For every integer [bytes] with [1 <= bytes < 1024 ^ 4] the unit
    index, the integer part of the base-1024 logarithm, lies within the
    table of four units, and the result is a number followed by a space and
    one of B, KB, MB, GB.  From [1024 ^ 4] on the index is outside the table;
    nothing guards the lookup, and the result ends in [undefined]. *)
Theorem formatBytes_unit_index (bytes : Z) :
  1 <= bytes ->
  (bytes < 1024 ^ 4 ->
   0 <= floorLog1024 bytes < 4 /\
   exists number unit,
     nth_error units (Z.to_nat (floorLog1024 bytes)) = Some unit /\
     In unit ["B"; "KB"; "MB"; "GB"]%list /\
     formatBytes bytes = number ++ " " ++ unit /\
     Rendered bytes (Z.to_nat (floorLog1024 bytes)) number) /\
  (1024 ^ 4 <= bytes ->
   4 <= floorLog1024 bytes /\
   nth_error units (Z.to_nat (floorLog1024 bytes)) = None /\
   exists number, formatBytes bytes = number ++ " undefined").
Proof.
  intros Hlo.
  assert (0 < bytes) as Hpos by lia.
  destruct (floorLog1024_spec bytes Hpos) as (Hi & Hle & Hlt).
  rewrite (formatBytes_positive bytes Hpos).
  split.
  - intros Hhi.
    pose proof (floorLog1024_below bytes 4 Hpos ltac:(lia) Hhi) as Hi4.
    split; [lia |].
    destruct (nth_error_units (floorLog1024 bytes) (conj Hi Hi4))
      as [unit Hunit].
    rewrite Hunit. eexists. exists unit.
    split; [reflexivity |]. split; [exact (nth_error_In _ _ Hunit) |].
    split; [reflexivity |].
    destruct (Z_of_nat_complete (floorLog1024 bytes) Hi) as [i Ei].
    rewrite Ei in Hle |- *. rewrite Nat2Z.id.
    apply toFixed_Rendered. exact Hle.
  - intros Hhi.
    pose proof (floorLog1024_above bytes 4 ltac:(lia) Hhi) as Hi4.
    assert (nth_error units (Z.to_nat (floorLog1024 bytes)) = None) as Hnone
      by (apply nth_error_None; simpl; lia).
    rewrite Hnone. split; [exact Hi4 |]. split; [reflexivity |].
    eexists. reflexivity.
Qed.

Lemma formatBytes_unit_index_witness :
  (exists number unit,
     nth_error units (Z.to_nat (floorLog1024 1536)) = Some unit /\
     In unit ["B"; "KB"; "MB"; "GB"]%list /\
     formatBytes 1536 = number ++ " " ++ unit /\
     Rendered 1536 (Z.to_nat (floorLog1024 1536)) number) /\
  (exists number, formatBytes (1024 ^ 4) = number ++ " undefined").
Proof.
  split.
  - apply (formatBytes_unit_index 1536); [lia | reflexivity].
  - apply (formatBytes_unit_index (1024 ^ 4)); [| reflexivity].
    vm_compute; discriminate.
Defined.

(** Sizes around the unit boundaries, a tie that rounds up, and a size
    that is not a number of bytes. *)
Example formatBytes_samples :
  map formatBytes [1; 1023; 1075; 1076; 1280; 1048575; 1048576; -3] =
  ["1 B"; "1023 B"; "1.0 KB"; "1.1 KB"; "1.3 KB"; "1024.0 KB"; "1.0 MB";
   "NaN undefined"].
Proof. vm_compute. reflexivity. Qed.

End FormatterClaims.

(** * Further properties of the classifier *)

Section CaseFacts.

Lemma lowerChar_idem (c : ascii) : lowerChar (lowerChar c) = lowerChar c.
Proof. destruct c as [[] [] [] [] [] [] [] []]; reflexivity. Qed.

Lemma toLowerCase_idem (s : string) :
  toLowerCase (toLowerCase s) = toLowerCase s.
Proof.
  induction s as [|c s IH]; simpl; [reflexivity |].
  now rewrite lowerChar_idem, IH.
Qed.

Lemma toLowerCase_append (a b : string) :
  toLowerCase (a ++ b) = toLowerCase a ++ toLowerCase b.
Proof. induction a as [|c a IH]; simpl; [reflexivity | now rewrite IH]. Qed.

(** Two ways of cutting one string: the shorter tail is a tail of the
    longer one. *)
Lemma append_tails (pre t q u : string) :
  pre ++ t = q ++ u ->
  (exists q', t = q' ++ u) \/ (exists pre', u = pre' ++ t).
Proof.
  revert q; induction pre as [|c pre IH]; intros q H; simpl in H.
  - left. now exists q.
  - destruct q as [|d q]; simpl in H.
    + right. exists (String c pre). now rewrite <- H.
    + injection H as _ H. exact (IH q H).
Qed.

Lemma endsWith_append (pre t u : string) :
  endsWith (pre ++ t) u = true -> endsWith t u = true \/ endsWith u t = true.
Proof.
  rewrite !endsWith_spec. intros [q H].
  destruct (append_tails pre t q u H) as [[q' E] | [pre' E]].
  - left. now exists q'.
  - right. now exists pre'.
Qed.

Lemma endsWith_same (pre t : string) : endsWith (pre ++ t) t = true.
Proof. apply endsWith_spec. now exists pre. Qed.

End CaseFacts.

Section MoreListFacts.
Context {A B : Type}.
Local Open Scope list_scope.

Lemma NoDup_map_filter (f : A -> B) (g : A -> bool) (l : list A) :
  NoDup (map f l) -> NoDup (map f (filter g l)).
Proof.
  induction l as [|a l IH]; simpl; intros H; [constructor |].
  inversion H as [| x xs Hnotin Hrest]; subst.
  destruct (g a); simpl; [| now apply IH].
  constructor; [| now apply IH].
  intros Hin. apply Hnotin.
  apply in_map_iff in Hin. destruct Hin as (b & Hb & Hin).
  apply filter_In in Hin. apply in_map_iff. exists b. tauto.
Qed.

Lemma filter_nil_iff (g : A -> bool) (l : list A) :
  filter g l = [] <-> forall a, In a l -> g a = false.
Proof.
  induction l as [|a l IH]; simpl.
  - split; [intros _ a [] | reflexivity].
  - destruct (g a) eqn:E.
    + split; [discriminate |]. intros H. specialize (H a (or_introl eq_refl)).
      congruence.
    + rewrite IH. split.
      * intros H b [<- | Hb]; [exact E | now apply H].
      * intros H b Hb. apply H. now right.
Qed.

End MoreListFacts.

Section ClassifierProperties.
Local Open Scope list_scope.
Import DownloadLinks.

Lemma installer_suffix (base ext : string) :
  In (toLowerCase ext) [".dmg"; ".exe"; ".msi"; ".appimage"; ".deb"; ".rpm"] ->
  isInstallerAsset (base ++ ext) = true.
Proof.
  intros Hext. unfold isInstallerAsset.
  rewrite toLowerCase_append. apply negb_true_iff.
  assert (forall u, endsWith (toLowerCase ext) u = false ->
                    endsWith u (toLowerCase ext) = false ->
                    endsWith (toLowerCase base ++ toLowerCase ext) u = false)
    as Hno.
  { intros u H1 H2.
    destruct (endsWith (toLowerCase base ++ toLowerCase ext) u) eqn:E;
      [| reflexivity].
    apply endsWith_append in E. destruct E; congruence. }
  simpl in Hext.
  destruct Hext as [H | [H | [H | [H | [H | [H | []]]]]]];
    rewrite <- H in Hno |- *;
    rewrite !Hno by reflexivity; reflexivity.
Qed.

Lemma label_none_iff (name : string) :
  match UpdateReleases.detectPlatform name with
  | None => true
  | Some _ => false
  end = negb (existsb (fun p => Platform.match_ p name) platforms).
Proof.
  rewrite detectPlatform_cascade. unfold platforms. cbn [existsb].
  destruct (Platform.match_ macOS name), (Platform.match_ Windows name),
    (Platform.match_ Linux name); reflexivity.
Qed.

(** X1. The letter case of a file name has no influence: the installer
    filter of either program, every matcher of the component and the label
    of the script give the same answer for a name and for its lower-case
    form. *)
Theorem classification_ignores_case (name : string) :
  isInstallerAsset (toLowerCase name) = isInstallerAsset name /\
  UpdateReleases.isInstallerAsset (toLowerCase name) =
    UpdateReleases.isInstallerAsset name /\
  (forall p, In p platforms ->
     Platform.match_ p (toLowerCase name) = Platform.match_ p name) /\
  UpdateReleases.detectPlatform (toLowerCase name) =
    UpdateReleases.detectPlatform name.
Proof.
  unfold isInstallerAsset, UpdateReleases.isInstallerAsset,
    UpdateReleases.detectPlatform.
  rewrite toLowerCase_idem. repeat split.
  intros p [<- | [<- | [<- | []]]]; cbn [Platform.match_ macOS Windows Linux];
    now rewrite toLowerCase_idem.
Qed.

Lemma classification_ignores_case_witness :
  Platform.match_ Linux (toLowerCase "Codeflow.AppImage") =
  Platform.match_ Linux "Codeflow.AppImage".
Proof.
  apply (proj1 (proj2 (proj2
           (classification_ignores_case "Codeflow.AppImage"))) Linux).
  right; right; left; reflexivity.
Defined.

(** X2. A name with an installer extension, in any letter case, passes the
    installer filter and satisfies the matcher of its platform: [.dmg] for
    macOS, [.exe] and [.msi] for Windows, [.appimage], [.deb] and [.rpm] for
    Linux; the script labels every [.dmg] name macOS. *)
Theorem extension_decides_platform (base ext : string) :
  (toLowerCase ext = ".dmg" ->
   isInstallerAsset (base ++ ext) = true /\
   Platform.match_ macOS (base ++ ext) = true /\
   UpdateReleases.detectPlatform (base ++ ext) = Some "macOS") /\
  (toLowerCase ext = ".exe" \/ toLowerCase ext = ".msi" ->
   isInstallerAsset (base ++ ext) = true /\
   Platform.match_ Windows (base ++ ext) = true) /\
  (toLowerCase ext = ".appimage" \/ toLowerCase ext = ".deb" \/
   toLowerCase ext = ".rpm" ->
   isInstallerAsset (base ++ ext) = true /\
   Platform.match_ Linux (base ++ ext) = true).
Proof.
  split; [| split].
  - intros E. split; [apply installer_suffix; rewrite E; simpl; tauto |].
    assert (Platform.match_ macOS (base ++ ext) = true) as Hm.
    { cbn [Platform.match_ macOS]. rewrite toLowerCase_append, E.
      rewrite endsWith_same. now rewrite !orb_true_r. }
    split; [exact Hm |].
    rewrite detectPlatform_cascade. now rewrite Hm.
  - intros E.
    split; [apply installer_suffix; destruct E as [-> | ->]; simpl; tauto |].
    cbn [Platform.match_ Windows]. rewrite toLowerCase_append.
    destruct E as [-> | ->]; rewrite endsWith_same; now rewrite !orb_true_r.
  - intros E.
    split; [apply installer_suffix; destruct E as [-> | [-> | ->]];
            simpl; tauto |].
    cbn [Platform.match_ Linux]. rewrite toLowerCase_append.
    destruct E as [-> | [-> | ->]]; rewrite endsWith_same;
      now rewrite !orb_true_r.
Qed.

Lemma extension_decides_platform_witness :
  isInstallerAsset ("Codeflow-Setup" ++ ".EXE") = true /\
  Platform.match_ Windows ("Codeflow-Setup" ++ ".EXE") = true.
Proof.
  apply (proj1 (proj2 (extension_decides_platform "Codeflow-Setup" ".EXE"))).
  left; reflexivity.
Defined.

(** X3. A side file is shown nowhere, whatever platform rule its name
    satisfies: no slot holds an asset of that name, the residual list has
    none, and the script writes no entry for it. *)
Theorem metadata_never_shown release name :
  metadataName name ->
  (forall p a, In (p, Some a) (platformAssets release) ->
               ReleaseAsset.name a <> name) /\
  (forall a, In a (unmatchedAssets release) -> ReleaseAsset.name a <> name) /\
  ~ In name (map UpdateReleases.Asset.name
               (UpdateReleases.snapshotAssets release)).
Proof.
  intros Hmeta. apply isInstallerAsset_false in Hmeta.
  assert (forall a, In a (installerAssets release) ->
                    ReleaseAsset.name a <> name) as Hinst.
  { intros a Hin E. apply filter_In in Hin. destruct Hin as [_ Hok].
    rewrite E in Hok. congruence. }
  split; [| split].
  - intros p a Hin. apply slot_of_platform in Hin. destruct Hin as [_ Hfind].
    symmetry in Hfind. apply find_some in Hfind. now apply Hinst.
  - intros a Hin. apply filter_In in Hin. now apply Hinst.
  - unfold UpdateReleases.snapshotAssets. rewrite map_map. simpl.
    intros Hin. apply in_map_iff in Hin. destruct Hin as (a & E & Hin).
    apply (Hinst a); [| exact E].
    unfold installerAssets. erewrite filter_ext; [exact Hin |].
    intros b. symmetry. apply isInstallerAsset_same.
Qed.

Lemma metadata_never_shown_witness :
  metadataName "latest-mac.YML" /\
  ~ In "latest-mac.YML"
       (map UpdateReleases.Asset.name
          (UpdateReleases.snapshotAssets checksumsOnly)).
Proof.
  assert (metadataName "latest-mac.YML") as H.
  { exists ".yml", "latest-mac". split; [simpl; tauto | reflexivity]. }
  split; [exact H |].
  exact (proj2 (proj2 (metadata_never_shown checksumsOnly "latest-mac.YML" H))).
Defined.

(** X4. The asset of a slot is an asset of the release that passed the
    installer filter and satisfies the matcher of the slot, and it is never
    listed among the other downloads as well. *)
Theorem slot_asset_not_residual release p a :
  In (p, Some a) (platformAssets release) ->
  In a (Release.assets release) /\
  isInstallerAsset (ReleaseAsset.name a) = true /\
  Platform.match_ p (ReleaseAsset.name a) = true /\
  ~ In a (unmatchedAssets release).
Proof.
  intros Hin. apply slot_of_platform in Hin. destruct Hin as [Hp Hfind].
  symmetry in Hfind. apply find_some in Hfind. destruct Hfind as [Hin Hmatch].
  pose proof Hin as Hin'. apply filter_In in Hin'. destruct Hin' as [Hall Hok].
  repeat split; trivial.
  intros Hres. apply filter_In in Hres. destruct Hres as [_ Hnone].
  apply negb_true_iff in Hnone.
  assert (existsb (fun q => Platform.match_ q (ReleaseAsset.name a))
                  platforms = true) as Hex
    by (apply existsb_exists; now exists p).
  congruence.
Qed.

Lemma slot_asset_not_residual_witness :
  In (Windows, Some (asset "App-1.0.exe" 2000000)) (platformAssets installers) /\
  ~ In (asset "App-1.0.exe" 2000000) (unmatchedAssets installers).
Proof.
  split; [right; left; reflexivity |].
  apply (slot_asset_not_residual installers Windows
           (asset "App-1.0.exe" 2000000)).
  right; left; reflexivity.
Defined.

(** X5. The entries that the script labels [null] are, name by name and in
    order, the other downloads of the component; every label is [null] or
    one of the three platform names. *)
Theorem unlabelled_are_other_downloads release :
  map UpdateReleases.Asset.name
    (filter (fun e => match UpdateReleases.Asset.platform e with
                      | None => true
                      | Some _ => false
                      end)
            (UpdateReleases.snapshotAssets release)) =
  map ReleaseAsset.name (unmatchedAssets release) /\
  (forall e, In e (UpdateReleases.snapshotAssets release) ->
     In (UpdateReleases.Asset.platform e)
        [None; Some "macOS"; Some "Windows"; Some "Linux"]).
Proof.
  split.
  - unfold UpdateReleases.snapshotAssets, unmatchedAssets, installerAssets.
    induction (Release.assets release) as [|a l IH]; [reflexivity |].
    cbn [filter map]. rewrite isInstallerAsset_same.
    destruct (isInstallerAsset (ReleaseAsset.name a)); [| exact IH].
    cbn [filter map UpdateReleases.Asset.platform]. rewrite label_none_iff.
    destruct (negb (existsb _ platforms)); [| exact IH].
    cbn [map UpdateReleases.Asset.name]. now rewrite IH.
  - intros e Hin. unfold UpdateReleases.snapshotAssets in Hin.
    apply in_map_iff in Hin. destruct Hin as (a & <- & _).
    cbn [UpdateReleases.Asset.platform]. rewrite detectPlatform_cascade.
    destruct (Platform.match_ macOS (ReleaseAsset.name a)),
      (Platform.match_ Windows (ReleaseAsset.name a)),
      (Platform.match_ Linux (ReleaseAsset.name a)); simpl; tauto.
Qed.

Lemma unlabelled_are_other_downloads_witness :
  In (UpdateReleases.Asset.platform
        (UpdateReleases.Asset.Build "readme.txt"
           "https://github.com/gimenete/codeflow/releases/download/v1.0/readme.txt"
           12 "12 B" None))
     [None; Some "macOS"; Some "Windows"; Some "Linux"].
Proof.
  apply (proj2 (unlabelled_are_other_downloads installers)).
  right; right; left; reflexivity.
Defined.

End ClassifierProperties.

(** * Properties of the rendered page *)

Section PageProperties.
Local Open Scope list_scope.
Import DownloadLinks.

(** X6. For a release whose assets are all side files, and so for a release
    without assets, every slot is empty, there are no other downloads, the
    three platform buttons point to the latest release on GitHub, and the
    script writes an empty list of assets. *)
Theorem no_installers_all_fallback release :
  (forall a, In a (Release.assets release) ->
             metadataName (ReleaseAsset.name a)) ->
  platformAssets release = [(macOS, None); (Windows, None); (Linux, None)] /\
  unmatchedAssets release = [] /\
  otherDownloads (page release) = None /\
  map href (platformButtons (page release)) =
    ["https://github.com/gimenete/codeflow/releases/latest";
     "https://github.com/gimenete/codeflow/releases/latest";
     "https://github.com/gimenete/codeflow/releases/latest"] /\
  UpdateReleases.snapshotAssets release = [].
Proof.
  intros Hall.
  assert (installerAssets release = []) as Hnone.
  { apply filter_nil_iff. intros a Hin. apply isInstallerAsset_false.
    now apply Hall. }
  assert (unmatchedAssets release = []) as Hres
    by (unfold unmatchedAssets; now rewrite Hnone).
  assert (platformAssets release =
          [(macOS, None); (Windows, None); (Linux, None)]) as Hslots
    by (unfold platformAssets; now rewrite Hnone).
  repeat split; trivial.
  - unfold page. cbn [otherDownloads]. now rewrite Hres.
  - unfold page. cbn [platformButtons]. now rewrite Hslots.
  - unfold UpdateReleases.snapshotAssets.
    assert (filter (fun a => UpdateReleases.isInstallerAsset
                               (ReleaseAsset.name a))
                   (Release.assets release) = []) as Hscript.
    { apply filter_nil_iff. intros a Hin.
      rewrite isInstallerAsset_same. apply isInstallerAsset_false.
      now apply Hall. }
    now rewrite Hscript.
Qed.

Lemma no_installers_all_fallback_witness :
  platformAssets checksumsOnly =
    [(macOS, None); (Windows, None); (Linux, None)] /\
  unmatchedAssets checksumsOnly = [] /\
  otherDownloads (page checksumsOnly) = None /\
  map href (platformButtons (page checksumsOnly)) =
    ["https://github.com/gimenete/codeflow/releases/latest";
     "https://github.com/gimenete/codeflow/releases/latest";
     "https://github.com/gimenete/codeflow/releases/latest"] /\
  UpdateReleases.snapshotAssets checksumsOnly = [].
Proof.
  apply (no_installers_all_fallback checksumsOnly).
  intros a [<- | [<- | []]].
  - exists ".sha256", "app-1.0.dmg". split; [simpl; tauto | reflexivity].
  - exists ".yml", "latest-mac". split; [simpl; tauto | reflexivity].
Defined.

(** X7. There are always three platform buttons, keyed macOS, Windows and
    Linux in this order.  A button points to the latest release on GitHub,
    in a new tab and with the text [Not available yet], exactly when no
    installer asset satisfies the matcher of its platform; otherwise it
    points to the download of an installer asset that satisfies it, in the
    same tab, with the name and the formatted size of that asset. *)
Theorem platform_button_target release p slot :
  In (p, slot) (platformAssets release) ->
  In (platformButton (p, slot)) (platformButtons (page release)) /\
  map key (platformButtons (page release)) =
    [Some "macOS"; Some "Windows"; Some "Linux"] /\
  (((forall a, In a (installerAssets release) ->
               Platform.match_ p (ReleaseAsset.name a) = false) /\
    href (platformButton (p, slot)) =
      "https://github.com/gimenete/codeflow/releases/latest" /\
    target (platformButton (p, slot)) = Some "_blank" /\
    content (platformButton (p, slot)) =
      [Platform.name p; "Not available yet"]) \/
   (exists a,
      In a (installerAssets release) /\
      Platform.match_ p (ReleaseAsset.name a) = true /\
      href (platformButton (p, slot)) = ReleaseAsset.browser_download_url a /\
      target (platformButton (p, slot)) = None /\
      content (platformButton (p, slot)) =
        [Platform.name p;
         (ReleaseAsset.name a ++ " (" ++
          formatBytes (ReleaseAsset.size a) ++ ")")%string])).
Proof.
  intros Hin. split; [| split].
  - unfold page. cbn [platformButtons]. now apply in_map.
  - reflexivity.
  - apply slot_of_platform in Hin. destruct Hin as [_ Hfind].
    destruct slot as [a |]; symmetry in Hfind.
    + right. exists a. apply find_some in Hfind. destruct Hfind as [Ha Hm].
      now repeat split.
    + left. split; [exact (find_nothing _ _ Hfind) | now repeat split].
Qed.

Lemma platform_button_target_witness :
  In (Linux, None) (platformAssets installers) /\
  In (platformButton (Linux, None)) (platformButtons (page installers)).
Proof.
  split; [right; right; left; reflexivity |].
  apply (platform_button_target installers Linux None).
  right; right; left; reflexivity.
Defined.

(** X8. The block of other downloads is absent exactly when every
    installer asset satisfies the matcher of some platform.  When it is
    there it is not empty and has one link per residual asset, in order,
    keyed by the name of the asset; if the assets of the release have
    distinct names, so have the keys. *)
Theorem other_downloads_block release :
  (otherDownloads (page release) = None <->
   forall a, In a (installerAssets release) ->
             matchesSomePlatform (ReleaseAsset.name a)) /\
  (forall links,
     otherDownloads (page release) = Some links ->
     links <> [] /\
     map href links =
       map ReleaseAsset.browser_download_url (unmatchedAssets release) /\
     map key links =
       map (fun a => Some (ReleaseAsset.name a)) (unmatchedAssets release) /\
     (NoDup (map ReleaseAsset.name (Release.assets release)) ->
      NoDup (map key links))).
Proof.
  unfold page. cbn [otherDownloads]. split.
  - destruct (unmatchedAssets release) as [|a l] eqn:E; simpl.
    + split; [intros _ | reflexivity].
      unfold unmatchedAssets in E.
      intros a Hin. apply some_platform_spec.
      pose proof (proj1 (filter_nil_iff _ _) E a Hin) as H.
      now apply negb_false_iff in H.
    + split; [discriminate |]. intros Hall. exfalso.
      assert (In a (unmatchedAssets release)) as Hin
        by (rewrite E; now left).
      apply filter_In in Hin. destruct Hin as [Hin Hnone].
      apply negb_true_iff in Hnone.
      apply Hall, some_platform_spec in Hin. congruence.
  - intros links.
    destruct (Nat.ltb_spec 0 (List.length (unmatchedAssets release)))
      as [Hlen | _]; [| discriminate].
    intros [= <-]. split.
    { destruct (unmatchedAssets release); [simpl in Hlen; lia | discriminate]. }
    rewrite !map_map. split; [reflexivity |]. split; [reflexivity |].
    intros Hnodup. cbn [key otherDownload].
    rewrite <- (map_map ReleaseAsset.name Some).
    apply Injective_map_NoDup; [intros x y [=]; assumption |].
    unfold unmatchedAssets, installerAssets.
    now do 2 apply NoDup_map_filter.
Qed.

Lemma other_downloads_block_witness :
  map key (map otherDownload (unmatchedAssets installers)) =
  [Some "readme.txt"].
Proof.
  apply (proj2 (other_downloads_block installers)
           (map otherDownload (unmatchedAssets installers))).
  reflexivity.
Defined.

End PageProperties.

(** * Further properties of the byte-size formatter *)

Section FormatterProperties.
Local Open Scope Z_scope.
Import DownloadLinks.

(** X9. A size from 1 to 1023 is shown as the integer itself followed by
    [B], in the component and in the script. *)
Theorem formatBytes_below_1024 (bytes : Z) :
  1 <= bytes < 1024 ->
  formatBytes bytes = decimal bytes ++ " B" /\
  UpdateReleases.formatBytes bytes = decimal bytes ++ " B".
Proof.
  intros [Hlo Hhi].
  assert (0 < bytes) as Hpos by lia.
  destruct (floorLog1024_spec bytes Hpos) as (Hi & Hle & _).
  pose proof (floorLog1024_below bytes 1 Hpos ltac:(lia) Hhi) as Hi1.
  assert (floorLog1024 bytes = 0) as E by lia.
  assert (formatBytes bytes = decimal bytes ++ " B") as H.
  { rewrite (formatBytes_positive bytes Hpos), E.
    pose proof (toFixed_Rendered bytes 0 ltac:(simpl; lia)) as Hr.
    cbn [Rendered Z.of_nat Z.eqb] in Hr.
    cbn [Z.eqb Z.to_nat nth_error units]. now rewrite Hr. }
  split; exact H.
Qed.

Lemma formatBytes_below_1024_witness :
  formatBytes 64 = decimal 64 ++ " B" /\
  UpdateReleases.formatBytes 64 = decimal 64 ++ " B".
Proof. apply (formatBytes_below_1024 64). lia. Defined.

(** X10. From 1024 up to, but excluding, [1024 ^ 4] the number shown has
    one decimal place and lies between 1.0 and 1024.0, both included, before
    one of KB, MB, GB: a size just below the next unit is rounded up to
    1024.0 of the smaller one, as 1048575 shows. *)
Theorem formatBytes_number_range (bytes : Z) :
  1024 <= bytes < 1024 ^ 4 ->
  (exists a b n unit,
     formatBytes bytes = a ++ "." ++ b ++ " " ++ unit /\
     In unit ["KB"; "MB"; "GB"]%list /\
     String.length b = 1%nat /\
     a ++ b = decimal n /\
     10 <= n <= 10240) /\
  formatBytes 1048575 = "1024.0 KB".
Proof.
  intros [Hlo Hhi]. split; [| vm_compute; reflexivity].
  assert (0 < bytes) as Hpos by lia.
  destruct (floorLog1024_spec bytes Hpos) as (Hi & Hle & Hlt).
  pose proof (floorLog1024_below bytes 4 Hpos ltac:(lia) Hhi) as Hi4.
  pose proof (floorLog1024_above bytes 1 ltac:(lia) ltac:(simpl; lia)) as Hi1.
  rewrite (formatBytes_positive bytes Hpos).
  destruct (Z_of_nat_complete (floorLog1024 bytes) Hi) as [i Ei].
  rewrite Ei in *. rewrite Nat2Z.id.
  pose proof (toFixed_Rendered bytes i Hle) as Hr.
  destruct i as [|i]; [lia |].
  destruct Hr as (a & b & n & Hnum & Hb & Hab & Hn1 & Hn2).
  set (D := 1024 ^ Z.of_nat (S i)) in *.
  assert (0 < D) as HD by (apply Z.pow_pos_nonneg; lia).
  assert (bytes < 1024 * D) as Hup.
  { replace (1024 * D) with (1024 ^ (Z.of_nat (S i) + 1)); [exact Hlt |].
    rewrite Z.pow_add_r by lia. unfold D. lia. }
  assert (exists unit, nth_error units (S i) = Some unit /\
                       In unit ["KB"; "MB"; "GB"]%list) as (unit & Hu & Hin).
  { assert (S i = 1 \/ S i = 2 \/ S i = 3)%nat as [-> | [-> | ->]] by lia;
      eexists; (split; [reflexivity | simpl; tauto]). }
  exists a, b, n, unit. rewrite Hu.
  destruct (Z.eqb_spec (Z.of_nat (S i)) 0) as [H0 | _]; [lia |].
  rewrite Hnum, !append_assoc.
  split; [reflexivity |]. split; [exact Hin |]. split; [exact Hb |].
  split; [exact Hab |]. nia.
Qed.

Lemma formatBytes_number_range_witness :
  exists a b n unit,
    formatBytes 2000000 = a ++ "." ++ b ++ " " ++ unit /\
    In unit ["KB"; "MB"; "GB"]%list /\
    String.length b = 1%nat /\
    a ++ b = decimal n /\
    10 <= n <= 10240.
Proof.
  apply (formatBytes_number_range 2000000). split; [lia | reflexivity].
Defined.

End FormatterProperties.

(** * Further properties of the script *)

Section ScriptWorlds.
Local Open Scope Z_scope.
Import UpdateReleases.

Variable JSON_stringify : Snapshot -> string.
Variable OUTPUT_PATH : string.

Lemma world_not_found res now w :
  (Response.status res =? 404) = true ->
  run JSON_stringify OUTPUT_PATH (Fulfilled res) now w =
  (Exited 0,
   {| dataDir := true;
      releaseJson := Some (JSON_stringify (emptySnapshot now) ++ newline);
      stdout := (stdout w ++
                 ["Fetching latest release from gimenete/codeflow...";
                  "No releases found. Writing empty release data.";
                  ("Wrote " ++ OUTPUT_PATH)%string])%list;
      stderr := stderr w |}).
Proof.
  intros H. unfold run, main, Eff.bind.
  cbn [console_log Eff.modify await Eff.ret]. rewrite H. simpl.
  now rewrite <- !app_assoc.
Qed.

Lemma world_bad_status res now w :
  (Response.status res =? 404) = false -> Response.ok res = false ->
  run JSON_stringify OUTPUT_PATH (Fulfilled res) now w =
  (Exited 1,
   {| dataDir := dataDir w;
      releaseJson := releaseJson w;
      stdout := (stdout w ++
                 ["Fetching latest release from gimenete/codeflow..."])%list;
      stderr := (stderr w ++
                 [("GitHub API error: HTTP " ++
                   decimal (Response.status res))%string])%list |}).
Proof.
  intros H Hok. unfold run, main, Eff.bind.
  cbn [console_log Eff.modify await Eff.ret]. rewrite H, Hok. reflexivity.
Qed.

Lemma world_unparsed res reason now w :
  (Response.status res =? 404) = false -> Response.ok res = true ->
  Response.json res = Rejected reason ->
  run JSON_stringify OUTPUT_PATH (Fulfilled res) now w =
  (Crashed reason,
   {| dataDir := dataDir w;
      releaseJson := releaseJson w;
      stdout := (stdout w ++
                 ["Fetching latest release from gimenete/codeflow..."])%list;
      stderr := stderr w |}).
Proof.
  intros H Hok Hjson. unfold run, main, Eff.bind.
  cbn [console_log Eff.modify await Eff.ret]. rewrite H, Hok, Hjson.
  reflexivity.
Qed.

Lemma world_ok res rel now w :
  (Response.status res =? 404) = false -> Response.ok res = true ->
  Response.json res = Fulfilled rel ->
  run JSON_stringify OUTPUT_PATH (Fulfilled res) now w =
  (Exited 0,
   {| dataDir := true;
      releaseJson := Some (JSON_stringify (classified rel now) ++ newline);
      stdout :=
        (stdout w ++
         ["Fetching latest release from gimenete/codeflow...";
          ("Release " ++ version rel ++ " with " ++
           decimal (Z.of_nat (List.length (snapshotAssets rel))) ++
           " asset(s):")%string] ++
         map (fun a =>
                ("  " ++
                 match Asset.platform a with
                 | Some label => label
                 | None => "other"
                 end ++ ": " ++ Asset.name a ++
                 " (" ++ Asset.sizeFormatted a ++ ")")%string)
             (snapshotAssets rel) ++
         [("Wrote " ++ OUTPUT_PATH)%string])%list;
      stderr := stderr w |}).
Proof.
  intros H Hok Hjson. unfold run, main, Eff.bind.
  cbn [console_log Eff.modify await Eff.ret]. rewrite H, Hok, Hjson.
  cbn [negb await Eff.ret mkdirSync writeFileSync Eff.modify].
  rewrite forEach_console_log. simpl.
  now rewrite <- !app_assoc.
Qed.

Lemma world_rejected reason now w :
  run JSON_stringify OUTPUT_PATH (Rejected reason) now w =
  (Crashed reason,
   {| dataDir := dataDir w; releaseJson := releaseJson w;
      stdout := (stdout w ++
                 ["Fetching latest release from gimenete/codeflow..."])%list;
      stderr := stderr w |}).
Proof. reflexivity. Qed.

End ScriptWorlds.

Section ScriptProperties.
Local Open Scope Z_scope.

(** X11. Whatever the fetch gives, the script ends with code 0, with code 1
    or by an unhandled rejection, the latter whenever the fetch itself
    fails.  A run that does not end with code 0 leaves the directory and
    the file as they were; a run that ends with code 0 has made the
    directory and written a document that carries the time stamp of the
    run, followed by a line feed.  The console only grows, and its first
    new line announces the fetch. *)
Theorem main_touches_file_only_on_success
  JSON_stringify OUTPUT_PATH fetched now w exit w' :
  UpdateReleases.run JSON_stringify OUTPUT_PATH fetched now w = (exit, w') ->
  (exit = UpdateReleases.Exited 0 \/ exit = UpdateReleases.Exited 1 \/
   exists reason, exit = UpdateReleases.Crashed reason) /\
  (exit <> UpdateReleases.Exited 0 ->
   UpdateReleases.releaseJson w' = UpdateReleases.releaseJson w /\
   UpdateReleases.dataDir w' = UpdateReleases.dataDir w) /\
  (exit = UpdateReleases.Exited 0 ->
   UpdateReleases.dataDir w' = true /\
   exists data,
     UpdateReleases.releaseJson w' = Some (JSON_stringify data ++ newline) /\
     UpdateReleases.fetchedAt data = now) /\
  (forall reason,
     fetched = Rejected reason -> exit = UpdateReleases.Crashed reason) /\
  (exists out,
     UpdateReleases.stdout w' =
       (UpdateReleases.stdout w ++
        "Fetching latest release from gimenete/codeflow..." :: out)%list) /\
  (exists err,
     UpdateReleases.stderr w' = (UpdateReleases.stderr w ++ err)%list).
Proof.
  intros Hrun. destruct fetched as [res | reason].
  - destruct (Response.status res =? 404) eqn:H404.
    + rewrite (world_not_found _ _ res now w H404) in Hrun.
      injection Hrun as <- <-. cbn.
      repeat split; try (now left); try congruence; try discriminate.
      * exists (emptySnapshot now). now split.
      * eexists. reflexivity.
      * exists []%list. now rewrite app_nil_r.
    + destruct (Response.ok res) eqn:Hok.
      * destruct (Response.json res) as [rel | reason] eqn:Hjson.
        -- rewrite (world_ok _ _ res rel now w H404 Hok Hjson) in Hrun.
           injection Hrun as <- <-. cbn.
           repeat split; try (now left); try congruence; try discriminate.
           ++ exists (classified rel now). now split.
           ++ eexists. reflexivity.
           ++ exists []%list. now rewrite app_nil_r.
        -- rewrite (world_unparsed _ _ res reason now w H404 Hok Hjson)
             in Hrun.
           injection Hrun as <- <-. cbn.
           repeat split; try discriminate.
           ++ right; right. now exists reason.
           ++ exists []%list. reflexivity.
           ++ exists []%list. now rewrite app_nil_r.
      * rewrite (world_bad_status _ _ res now w H404 Hok) in Hrun.
        injection Hrun as <- <-. cbn.
        repeat split; try discriminate.
        -- right; now left.
        -- exists []%list. reflexivity.
        -- eexists. reflexivity.
  - rewrite world_rejected in Hrun. injection Hrun as <- <-. cbn.
    repeat split; try discriminate.
    + right; right. now exists reason.
    + intros r [= ->]. reflexivity.
    + exists []%list. reflexivity.
    + exists []%list. now rewrite app_nil_r.
Qed.

Lemma main_touches_file_only_on_success_witness :
  UpdateReleases.releaseJson
    (snd (UpdateReleases.run sketch "src/data/release.json"
            (Rejected "fetch failed") "2025-01-03T00:00:00.000Z" builtWorld))
  = UpdateReleases.releaseJson builtWorld /\
  UpdateReleases.dataDir
    (snd (UpdateReleases.run sketch "src/data/release.json"
            (Rejected "fetch failed") "2025-01-03T00:00:00.000Z" builtWorld))
  = UpdateReleases.dataDir builtWorld.
Proof.
  destruct (main_touches_file_only_on_success sketch "src/data/release.json"
              (Rejected "fetch failed") "2025-01-03T00:00:00.000Z"
              builtWorld _ _ (surjective_pairing _)) as (_ & Hkept & _).
  apply Hkept. vm_compute. discriminate.
Defined.

(** X12. After a 2xx response with a release the script has logged, after
    the line that announces the fetch, a header with the version and the
    number of installer assets, then one line per installer asset in the
    order of the release, with its label or [other], its name and its
    formatted size, and last the path written; nothing goes to the error
    stream. *)
Theorem success_log_lists_written_assets
  JSON_stringify OUTPUT_PATH res release now w exit w' :
  200 <= Response.status res <= 299 ->
  Response.json res = Fulfilled release ->
  UpdateReleases.run JSON_stringify OUTPUT_PATH (Fulfilled res) now w
    = (exit, w') ->
  UpdateReleases.stderr w' = UpdateReleases.stderr w /\
  UpdateReleases.stdout w' =
    (UpdateReleases.stdout w ++
     ["Fetching latest release from gimenete/codeflow...";
      ("Release " ++ UpdateReleases.version release ++ " with " ++
       decimal (Z.of_nat (List.length (DownloadLinks.installerAssets release)))
       ++ " asset(s):")%string] ++
     map (fun a =>
            ("  " ++
             match UpdateReleases.detectPlatform (ReleaseAsset.name a) with
             | Some label => label
             | None => "other"
             end ++ ": " ++ ReleaseAsset.name a ++
             " (" ++ DownloadLinks.formatBytes (ReleaseAsset.size a) ++
             ")")%string)
         (DownloadLinks.installerAssets release) ++
     [("Wrote " ++ OUTPUT_PATH)%string])%list.
Proof.
  intros H2xx Hjson Hrun.
  destruct (status_2xx res H2xx) as [H404 Hok].
  rewrite (world_ok _ _ res release now w H404 Hok Hjson) in Hrun.
  injection Hrun as _ <-. cbn [UpdateReleases.stderr UpdateReleases.stdout].
  split; [reflexivity |].
  unfold UpdateReleases.snapshotAssets.
  rewrite length_map, map_map.
  cbn [UpdateReleases.Asset.platform UpdateReleases.Asset.name
       UpdateReleases.Asset.sizeFormatted].
  reflexivity.
Qed.

Lemma success_log_lists_written_assets_witness :
  UpdateReleases.stdout
    (snd (UpdateReleases.run sketch "src/data/release.json"
            (Fulfilled (Response.Build 200 (Fulfilled twoDiskImages)))
            "2025-01-03T00:00:00.000Z" emptyWorld))
  = ["Fetching latest release from gimenete/codeflow...";
     "Release Codeflow 1.0 with 2 asset(s):";
     "  macOS: App-1.0-arm64.dmg (976.6 KB)";
     "  macOS: App-1.0-x64.dmg (1.0 MB)";
     "Wrote src/data/release.json"].
Proof.
  assert (200 <= 200 <= 299) as H2xx by lia.
  exact (proj2 (success_log_lists_written_assets sketch "src/data/release.json"
                  (Response.Build 200 (Fulfilled twoDiskImages)) twoDiskImages
                  "2025-01-03T00:00:00.000Z" emptyWorld _ _
                  H2xx eq_refl (surjective_pairing _))).
Defined.

(** X13. On a status that is neither 404 nor 2xx the script writes one line
    to the error stream, which names the status in decimal, and nothing but
    the announcement of the fetch to the output stream. *)
Theorem error_status_is_logged
  JSON_stringify OUTPUT_PATH res now w exit w' :
  Response.status res <> 404 -> ~ 200 <= Response.status res <= 299 ->
  UpdateReleases.run JSON_stringify OUTPUT_PATH (Fulfilled res) now w
    = (exit, w') ->
  UpdateReleases.stderr w' =
    (UpdateReleases.stderr w ++
     [("GitHub API error: HTTP " ++
       decimal (Response.status res))%string])%list /\
  UpdateReleases.stdout w' =
    (UpdateReleases.stdout w ++
     ["Fetching latest release from gimenete/codeflow..."])%list.
Proof.
  intros H404 Hother Hrun.
  destruct (status_other res H404 Hother) as [H404' Hok].
  rewrite (world_bad_status _ _ res now w H404' Hok) in Hrun.
  injection Hrun as _ <-. now split.
Qed.

Lemma error_status_is_logged_witness :
  UpdateReleases.stderr
    (snd (UpdateReleases.run sketch "src/data/release.json"
            (Fulfilled (Response.Build 503 (Rejected "not read")))
            "2025-01-03T00:00:00.000Z" emptyWorld))
  = ["GitHub API error: HTTP 503"] /\
  UpdateReleases.stdout
    (snd (UpdateReleases.run sketch "src/data/release.json"
            (Fulfilled (Response.Build 503 (Rejected "not read")))
            "2025-01-03T00:00:00.000Z" emptyWorld))
  = ["Fetching latest release from gimenete/codeflow..."].
Proof.
  assert (503 <> 404) as H404 by lia.
  assert (~ 200 <= 503 <= 299) as Hother by lia.
  exact (error_status_is_logged sketch "src/data/release.json"
           (Response.Build 503 (Rejected "not read"))
           "2025-01-03T00:00:00.000Z" emptyWorld _ _
           H404 Hother (surjective_pairing _)).
Defined.

End ScriptProperties.

(** * A further property of the fetch effect *)

Section EffectProperties.
Import DownloadLinks.

(** The state after the promise chain, from any state before it. *)
Lemma effect_state (fetched : Settled (Response.t JsValue)) (before : State) :
  snd (effect fetched before) =
  match fetched with
  | Rejected _ =>
      {| release := release before; loading := false;
         error := Some errorMessage |}
  | Fulfilled res =>
      if (Response.status res =? 404)%Z then
        {| release := release before; loading := false;
           error := error before |}
      else if negb (Response.ok res) then
        {| release := release before; loading := false;
           error := Some errorMessage |}
      else
        match Response.json res with
        | Rejected _ =>
            {| release := release before; loading := false;
               error := Some errorMessage |}
        | Fulfilled data =>
            {| release := if truthy data then data else release before;
               loading := false; error := error before |}
        end
  end.
Proof.
  unfold effect, Eff.catch, Eff.bind.
  destruct fetched as [res | reason]; cbn [await Eff.ret Eff.throw];
    [| reflexivity].
  destruct (Response.status res =? 404)%Z; [reflexivity |].
  destruct (negb (Response.ok res)); [reflexivity |].
  destruct (Response.json res) as [data | reason];
    cbn [await Eff.ret Eff.throw]; [| reflexivity].
  destruct (truthy data); reflexivity.
Qed.

(** X14. Run from any state, as when the effect runs a second time, the
    promise chain always ends the loading.  It changes the release only by
    storing a truthy body and the error only by setting the generic
    message, never both, and it never clears either: if an error message was
    shown before, an error message is shown afterwards whatever the
    response. *)
Theorem effect_never_clears (fetched : Settled (Response.t JsValue))
                            (before : State) :
  loading (snd (effect fetched before)) = false /\
  (release (snd (effect fetched before)) = release before \/
   (truthy (release (snd (effect fetched before))) = true /\
    error (snd (effect fetched before)) = error before)) /\
  (error (snd (effect fetched before)) = error before \/
   (error (snd (effect fetched before)) = Some errorMessage /\
    release (snd (effect fetched before)) = release before)) /\
  (forall message,
     shown (error before) = Some message ->
     exists message',
       render (snd (effect fetched before)) = ErrorText message').
Proof.
  assert (forall s, loading s = false ->
            (error s = error before \/ error s = Some errorMessage) ->
            forall message, shown (error before) = Some message ->
            exists message', render s = ErrorText message') as Hshown.
  { intros s Hl [He | He] message Hm; unfold render; rewrite Hl, He.
    - rewrite Hm. now exists message.
    - now exists errorMessage. }
  rewrite effect_state.
  destruct fetched as [res | reason].
  - destruct (Response.status res =? 404)%Z;
      [| destruct (negb (Response.ok res));
         [| destruct (Response.json res) as [data | reason];
            [destruct (truthy data) eqn:Ht |]]];
      cbn [loading release error];
      (split; [reflexivity |]); (split; [auto |]); (split; [auto |]);
      apply Hshown; auto.
  - cbn [loading release error].
    split; [reflexivity |]. split; [auto |]. split; [auto |].
    apply Hshown; auto.
Qed.

Lemma effect_never_clears_witness :
  exists message',
    render (snd (effect (Fulfilled (Response.Build 200
                           (Fulfilled (JObject [("tag_name", JString "v1.0")]))))
                        errorState))
    = ErrorText message'.
Proof.
  apply (proj2 (proj2 (proj2 (effect_never_clears _ errorState)))
           errorMessage).
  reflexivity.
Defined.

End EffectProperties.
